(** * lekko-setup-action: a shallow embedding of the installer.

    The action is a linear chain of calls into the GitHub Actions toolkit
    ([core], [tool-cache], [io]), [node-fetch], Octokit and Node's [os],
    [path] and [child_process].  The functions of [src/lekko.ts],
    of its two-argument sibling and of [src/run.ts] are embedded as
    computations in a small monad that
      - records every call that leaves the program as an [Event],
      - asks a [World] for the answer of each such call, the answer being
        allowed to depend on everything that happened before, and
      - distinguishes a JavaScript [throw] from a returned value. *)

From Stdlib Require Import String Ascii List Bool Arith Lia.
From Stdlib Require Import Decimal DecimalString DecimalNat.
Import ListNotations.
Local Open Scope list_scope.
Local Open Scope string_scope.

Set Implicit Arguments.

(* ================================================================== *)
(** ** JavaScript strings *)

Module JsString.

(** [s.length] *)
Definition length (s : string) : nat := String.length s.

(** [s.slice(0, n)] *)
Definition slice0 (n : nat) (s : string) : string := String.substring 0 n s.

(** [s.indexOf(sub)], [None] standing for [-1]. *)
Definition indexOf (s sub : string) : option nat := String.index 0 sub s.

(** [s.includes(sub)] *)
Definition includes (s sub : string) : bool :=
  match indexOf s sub with Some _ => true | None => false end.

(** The text a template literal prints for a non-negative integer. *)
Definition of_nat (n : nat) : string :=
  NilEmpty.string_of_uint (Nat.to_uint n).

(** [a === b] on strings. *)
Definition seq (a b : string) : bool := String.eqb a b.

Definition is_digit (c : ascii) : bool :=
  match c with
  | "0" | "1" | "2" | "3" | "4" | "5" | "6" | "7" | "8" | "9" => true
  | _ => false
  end%char.

End JsString.

(* ================================================================== *)
(** ** Values that cross the boundary of the program *)

(** [./error]: the one error kind of the action, an object with a message. *)
Record Error : Type := { message : string }.

(** A value given to [throw].  [ThrownError] is an object carrying a
    [message] (every built-in [Error], [TypeError], Octokit's
    [RequestError], ...); [ThrownOther] is any value without one. *)
Inductive Thrown : Type :=
| ThrownError (msg : string)
| ThrownOther.

(** Modelled from the spec: [isError] of [./error] is imported by
    [lekko.ts] and [run.ts] but its file is not among the sources.  The
    specification knows a single error kind "carrying a human-readable
    message", and a caught value is reported with its message exactly when
    it has that shape. *)
Definition isError_thrown (e : Thrown) : option Error :=
  match e with
  | ThrownError m => Some {| message := m |}
  | ThrownOther => None
  end.

(** A value of type [string | Error] is a sum; [isError] on it is the match
    on the summand, written out where the source tests it. *)

(** The outcome of a call: it returns or it throws. *)
Inductive Outcome (A : Type) : Type :=
| Ret (a : A)
| Throw (e : Thrown).
Arguments Throw {A} e.

(** An asset of a release, as the registry lists it. *)
Record Asset : Type := { name : string; url : string }.

(** A release: only its asset list is read. *)
Record Release : Type := { assets : list Asset }.

(** [tokenResp] of [lekko.ts]: [token: string | undefined]. *)
Record tokenResp : Type := { token : option string }.

(** What [lekko.ts] reads of a [node-fetch] response. *)
Record Response : Type := {
  ok : bool;
  statusText : string;
  json : Outcome tokenResp
}.

(** The Octokit client as constructed in [getDownloadURL]. *)
Record Octokit : Type := {
  auth : string;
  agent : option string   (* [new HttpsProxyAgent(proxy)] or [undefined] *)
}.

(** Headers of a request, in the order of the object literal. *)
Definition Headers : Type := list (string * string).

(* ================================================================== *)
(** ** Events and the world *)

Inductive Event : Type :=
| EvInfo (msg : string)                                   (* core.info *)
| EvSetFailed (msg : string)                              (* core.setFailed *)
| EvAddPath (dir : string)                                (* core.addPath *)
| EvFind (tool version arch : string)                     (* tc.find *)
| EvFetch (target method : string) (headers : Headers) (body : string)
| EvListReleases (client : Octokit) (owner repo : string) (per_page : nat)
| EvReleaseByTag (client : Octokit) (owner repo tag : string)
| EvDownloadTool (from : string) (dest auth : option string)
                 (headers : option Headers)               (* tc.downloadTool *)
| EvExtractTar (file : string)                            (* tc.extractTar *)
| EvCacheDir (dir tool version arch : string)             (* tc.cacheDir *)
| EvWhich (tool : string) (check : bool)                  (* io.which *)
| EvExecSync (cmd : string).                              (* cp.execSync *)

Definition History : Type := list Event.
Bind Scope list_scope with History.

(** Everything the program asks of its surroundings.  The host and the
    inputs are fixed for a run; every other answer may depend on the
    history of the run so far. *)
Record World : Type := {
  os_arch : string;
  os_platform : string;
  env_http_proxy : option string;
  core_getInput : string -> string;
  path_join : string -> string -> string;
  tc_find : History -> string -> string -> string -> string;
  fetch : History -> string -> string -> Headers -> string -> Outcome Response;
  octokit_listReleases :
    History -> Octokit -> string -> string -> nat -> Outcome (list Release);
  octokit_releaseByTag :
    History -> Octokit -> string -> string -> string -> Outcome Release;
  tc_downloadTool :
    History -> string -> option string -> option string -> option Headers ->
    Outcome string;
  tc_extractTar : History -> string -> Outcome string;
  tc_cacheDir : History -> string -> string -> string -> string -> Outcome string;
  io_which : History -> string -> bool -> Outcome string;
  cp_execSync : History -> string -> Outcome string
}.

(* ================================================================== *)
(** ** The monad of a run *)

(** A computation reads the history so far and yields the events it adds,
    in order, with its outcome. *)
Definition M (A : Type) : Type := History -> list Event * Outcome A.

Definition ret (A : Type) (a : A) : M A := fun _ => ([], Ret a).

Definition throw (A : Type) (e : Thrown) : M A := fun _ => ([], Throw e).
Arguments throw {A} e.

(** A value that is already settled by the time it is awaited. *)
Definition settle (A : Type) (o : Outcome A) : M A := fun _ => ([], o).

Definition bind (A B : Type) (m : M A) (k : A -> M B) : M B :=
  fun h =>
    match m h with
    | (es, Ret a) => let (es', r) := k a (h ++ es)%list in ((es ++ es')%list, r)
    | (es, Throw e) => (es, Throw e)
    end.

(** [try { m } catch (e) { handler e }] *)
Definition try_catch (A : Type) (m : M A) (handler : Thrown -> M A) : M A :=
  fun h =>
    match m h with
    | (es, Ret a) => (es, Ret a)
    | (es, Throw e) => let (es', r) := handler e (h ++ es)%list in ((es ++ es')%list, r)
    end.

(** A call that leaves the program: the event is recorded and the world
    answers from the history before the call. *)
Definition call (A : Type) (ev : Event) (answer : History -> Outcome A) : M A :=
  fun h => ([ev], answer h).

Notation "x <- m ;; k" := (bind m (fun x => k))
  (at level 61, m at next level, right associativity).
Notation "m ;;; k" := (bind m (fun _ => k))
  (at level 61, right associativity).

(** The events and the outcome of a whole run, started on an empty history. *)
Definition events (A : Type) (m : M A) (h : History) : list Event := fst (m h).
Definition outcome (A : Type) (m : M A) (h : History) : Outcome A := snd (m h).

(** The text written by [core.info], in order. *)
Fixpoint log (es : list Event) : list string :=
  match es with
  | [] => []
  | EvInfo msg :: es' => msg :: log es'
  | _ :: es' => log es'
  end.

(** Calls that reach the network. *)
Definition is_network (ev : Event) : bool :=
  match ev with
  | EvFetch _ _ _ _ | EvListReleases _ _ _ _ | EvReleaseByTag _ _ _ _
  | EvDownloadTool _ _ _ _ => true
  | _ => false
  end.

(** Calls that change the file system, the tool cache or the search path. *)
Definition is_mutation (ev : Event) : bool :=
  match ev with
  | EvDownloadTool _ _ _ _ | EvExtractTar _ | EvCacheDir _ _ _ _
  | EvAddPath _ => true
  | _ => false
  end.

Definition is_token_exchange (ev : Event) : bool :=
  match ev with EvFetch _ _ _ _ => true | _ => false end.

Definition is_registry_query (ev : Event) : bool :=
  match ev with
  | EvListReleases _ _ _ _ | EvReleaseByTag _ _ _ _ => true
  | _ => false
  end.

Definition is_download (ev : Event) : bool :=
  match ev with EvDownloadTool _ _ _ _ => true | _ => false end.

Definition is_extraction (ev : Event) : bool :=
  match ev with EvExtractTar _ => true | _ => false end.

Definition is_cache_write (ev : Event) : bool :=
  match ev with EvCacheDir _ _ _ _ => true | _ => false end.

(** The toolkit's calls, bound to a world. *)
Section Toolkit.
Variable w : World.

Definition core_info (msg : string) : M unit :=
  call (EvInfo msg) (fun _ => Ret tt).

Definition core_setFailed (msg : string) : M unit :=
  call (EvSetFailed msg) (fun _ => Ret tt).

Definition core_addPath (dir : string) : M unit :=
  call (EvAddPath dir) (fun _ => Ret tt).

Definition tc_find_call (tool version arch : string) : M string :=
  call (EvFind tool version arch)
       (fun h => Ret (tc_find w h tool version arch)).

Definition fetch_call (target method : string) (headers : Headers)
           (body : string) : M Response :=
  call (EvFetch target method headers body)
       (fun h => fetch w h target method headers body).

Definition listReleases_call (client : Octokit) (owner repo : string)
           (per_page : nat) : M (list Release) :=
  call (EvListReleases client owner repo per_page)
       (fun h => octokit_listReleases w h client owner repo per_page).

Definition releaseByTag_call (client : Octokit) (owner repo tag : string)
  : M Release :=
  call (EvReleaseByTag client owner repo tag)
       (fun h => octokit_releaseByTag w h client owner repo tag).

Definition downloadTool_call (from : string) (dest auth : option string)
           (headers : option Headers) : M string :=
  call (EvDownloadTool from dest auth headers)
       (fun h => tc_downloadTool w h from dest auth headers).

Definition extractTar_call (file : string) : M string :=
  call (EvExtractTar file) (fun h => tc_extractTar w h file).

Definition cacheDir_call (dir tool version arch : string) : M string :=
  call (EvCacheDir dir tool version arch)
       (fun h => tc_cacheDir w h dir tool version arch).

Definition which_call (tool : string) (check : bool) : M string :=
  call (EvWhich tool check) (fun h => io_which w h tool check).

Definition execSync_call (cmd : string) : M string :=
  call (EvExecSync cmd) (fun h => cp_execSync w h cmd).

End Toolkit.

(* ================================================================== *)
(** ** The part shared by both variants of [lekko.ts] *)

(** The double quote of the template literals. *)
Definition dq : string := String (ascii_of_nat 34) EmptyString.

(** [const versionPrefix = "v"] *)
Definition versionPrefix : string := "v".

(** [releaseTagForVersion]: the same text in both variants. *)
Definition releaseTagForVersion (version : string) : string :=
  match JsString.indexOf version versionPrefix with
  | Some 0 => version
  | _ => versionPrefix ++ version
  end.

(** The [switch (os.arch())] of [getDownloadURL]. *)
Definition architectureSwitch (arch : string) : string + Error :=
  if JsString.seq arch "x64" then inl "x86_64"
  else if JsString.seq arch "arm64" then inl "arm64"
  else inr {| message := "The " ++ dq ++ arch ++ dq ++
                         " architecture is not supported with a Lekko release." |}.

(** The [switch (os.platform())] of [getDownloadURL]. *)
Definition platformSwitch (platform : string) : string + Error :=
  if JsString.seq platform "linux" then inl "Linux"
  else if JsString.seq platform "darwin" then inl "Darwin"
  else inr {| message := "The " ++ dq ++ platform ++ dq ++
                         " platform is not supported with a Lekko release." |}.

(** The two switches in the order of the source: the architecture is looked
    at first and an unsupported one returns before the platform is read.
    The result is the pair ([architecture], [platform]) of the locals. *)
Definition resolveTokens (arch platform : string) : (string * string) + Error :=
  match architectureSwitch arch with
  | inr e => inr e
  | inl architecture =>
      match platformSwitch platform with
      | inr e => inr e
      | inl platform' => inl (architecture, platform')
      end
  end.

(** [`lekko_${platform}_${architecture}.tar.gz`] *)
Definition assetNameOf (platform architecture : string) : string :=
  "lekko_" ++ platform ++ "_" ++ architecture ++ ".tar.gz".

(** [process.env.http_proxy ? new HttpsProxyAgent(...) : undefined]: an
    unset or empty variable is falsy. *)
Definition requestAgentOf (proxy : option string) : option string :=
  match proxy with
  | Some p => if JsString.seq p EmptyString then None else Some p
  | None => None
  end.

(** [for (const asset of assets) if (assetName === asset.name) return asset.url] *)
Fixpoint scanAssets (assetName : string) (l : list Asset) : option string :=
  match l with
  | [] => None
  | asset :: rest =>
      if JsString.seq assetName (name asset) then Some (url asset)
      else scanAssets assetName rest
  end.

(** What reading [.assets] of [undefined] throws. *)
Definition assetsOfUndefined : Thrown :=
  ThrownError "Cannot read properties of undefined (reading 'assets')".

(** [releases[0].assets] *)
Definition firstAssets (releases : list Release) : M (list Asset) :=
  match nth_error releases 0 with
  | Some release => ret (assets release)
  | None => throw assetsOfUndefined
  end.

Definition unableToFindVersion (version platform architecture : string) : Error :=
  {| message := "Unable to find Lekko version " ++ dq ++ version ++ dq ++
                " for platform " ++ dq ++ platform ++ dq ++
                " and architecture " ++ dq ++ architecture ++ dq ++ "." |}.

Definition unableToFindLatest (platform architecture : string) : Error :=
  {| message := "Unable to find latest Lekko version for platform " ++ dq ++
                platform ++ dq ++ " and architecture " ++ dq ++ architecture ++
                dq ++ "." |}.

(* ================================================================== *)
(** ** [src/lekko.ts]: the variant with the API key *)

Module Lekko.
Section WithWorld.
Variable w : World.

Definition tokenEndpoint : string :=
  "https://web.api.lekko.dev/lekko.backend.v1beta1.DistributionService/GetDeveloperAccessToken".

Definition getGithubToken (apikey : string) : M (string + Error) :=
  resp <- fetch_call w tokenEndpoint "POST"
            [("apikey", apikey); ("Content-Type", "application/json")]
            "{}" ;;
  if negb (ok resp) then
    ret (inr {| message := "Error getting developer access token: " ++
                           statusText resp |})
  else
    data <- settle (json resp) ;;
    match token data with
    | None => ret (inr {| message := "No token found in response" |})
    | Some t =>
        if Nat.eqb (JsString.length t) 0
        then ret (inr {| message := "No token found in response" |})
        else ret (inl t)
    end.

Definition getDownloadURL (version githubToken : string) : M (string + Error) :=
  match resolveTokens (os_arch w) (os_platform w) with
  | inr e => ret (inr e)
  | inl (architecture, platform) =>
      let assetName := assetNameOf platform architecture in
      let requestAgent := requestAgentOf (env_http_proxy w) in
      let octokit := {| auth := githubToken; agent := requestAgent |} in
      if JsString.seq version "latest" then
        releases <- listReleases_call w octokit "lekkodev" "cli" 1 ;;
        first <- firstAssets releases ;;
        match scanAssets assetName first with
        | Some found => ret (inl found)
        | None => ret (inr (unableToFindLatest platform architecture))
        end
      else
        let tag := releaseTagForVersion version in
        release <- releaseByTag_call w octokit "lekkodev" "cli" tag ;;
        match scanAssets assetName (assets release) with
        | Some found => ret (inl found)
        | None => ret (inr (unableToFindVersion version platform architecture))
        end
  end.

(** The statements of [getLekko] after the credential is settled. *)
Definition fetchWith (version githubToken : string) : M (string + Error) :=
  core_info "Resolving the download URL for the current platform..." ;;;
  downloadURL <- getDownloadURL version githubToken ;;
  match downloadURL with
  | inr e => ret (inr e)
  | inl downloadURL =>
      core_info ("Downloading lekko version " ++ dq ++ version ++ dq ++
                 " from " ++ downloadURL) ;;;
      downloadPath <- downloadTool_call w downloadURL None None
                        (Some [("Accept", "application/octet-stream");
                               ("Authorization", "Bearer " ++ githubToken);
                               ("X-GitHub-Api-Version", "2022-11-28")]) ;;
      core_info ("Successfully downloaded lekko version " ++ dq ++ version ++
                 dq ++ " onto path " ++ downloadPath) ;;;
      core_info "Extracting lekko..." ;;;
      extractPath <- extractTar_call w downloadPath ;;
      core_info ("Successfully extracted lekko to " ++ extractPath) ;;;
      core_info ("Adding " ++ dq ++ extractPath ++ dq ++ " to the cache...") ;;;
      cacheDir <- cacheDir_call w extractPath "lekko" version (os_arch w) ;;
      core_info ("Successfully cached lekko to " ++ cacheDir) ;;;
      ret (inl cacheDir)
  end.

Definition getLekko (version apikey githubToken : string) : M (string + Error) :=
  binaryPath <- tc_find_call w "lekko" version (os_arch w) ;;
  if negb (JsString.seq binaryPath EmptyString) then
    core_info ("Found in cache @ " ++ binaryPath) ;;;
    ret (inl binaryPath)
  else
    credential <-
      (if Nat.ltb 0 (JsString.length apikey) then
         core_info "Retrieving developer github token for your api key..." ;;;
         getGithubToken apikey
       else ret (inl githubToken)) ;;
    match credential with
    | inr e => ret (inr e)
    | inl githubToken' => fetchWith version githubToken'
    end.

End WithWorld.
End Lekko.

(* ================================================================== *)
(** ** The two-argument variant of [lekko.ts] *)

Module LekkoPrev.
Section WithWorld.
Variable w : World.

Definition getDownloadURL (version githubToken : string) : M (string + Error) :=
  match resolveTokens (os_arch w) (os_platform w) with
  | inr e => ret (inr e)
  | inl (architecture, platform) =>
      let assetName := assetNameOf platform architecture in
      let requestAgent := requestAgentOf (env_http_proxy w) in
      let octokit := {| auth := githubToken; agent := requestAgent |} in
      if JsString.seq version "latest" then
        releases <- listReleases_call w octokit "lekkodev" "cli" 1 ;;
        first <- firstAssets releases ;;
        match scanAssets assetName first with
        | Some found => ret (inl found)
        | None => ret (inr (unableToFindVersion version platform architecture))
        end
      else
        let tag := releaseTagForVersion version in
        release <- releaseByTag_call w octokit "lekkodev" "cli" tag ;;
        match scanAssets assetName (assets release) with
        | Some found => ret (inl found)
        | None => ret (inr (unableToFindVersion version platform architecture))
        end
  end.

(** The line that reports the download, with the token's length and its
    first five characters. *)
Definition downloadingLine (version downloadURL githubToken : string) : string :=
  "Downloading lekko version " ++ dq ++ version ++ dq ++ " from " ++
  downloadURL ++ " using token of length " ++
  JsString.of_nat (JsString.length githubToken) ++ ": " ++
  JsString.slice0 5 githubToken.

Definition getLekko (version githubToken : string) : M (string + Error) :=
  binaryPath <- tc_find_call w "lekko" version (os_arch w) ;;
  if negb (JsString.seq binaryPath EmptyString) then
    core_info ("Found in cache @ " ++ binaryPath) ;;;
    ret (inl binaryPath)
  else
    core_info "Resolving the download URL for the current platform..." ;;;
    downloadURL <- getDownloadURL version githubToken ;;
    match downloadURL with
    | inr e => ret (inr e)
    | inl downloadURL =>
        core_info (downloadingLine version downloadURL githubToken) ;;;
        downloadPath <- downloadTool_call w downloadURL None
                          (Some githubToken) None ;;
        core_info ("Successfully downloaded lekko version " ++ dq ++ version ++
                   dq ++ " from " ++ downloadURL) ;;;
        core_info "Extracting lekko..." ;;;
        extractPath <- extractTar_call w downloadPath ;;
        core_info ("Successfully extracted lekko to " ++ extractPath) ;;;
        core_info "Adding lekko to the cache..." ;;;
        cacheDir <- cacheDir_call w (path_join w extractPath "lekko")
                      "lekko" version (os_arch w) ;;
        core_info ("Successfully cached lekko to " ++ cacheDir) ;;;
        ret (inl cacheDir)
    end.

End WithWorld.
End LekkoPrev.

(* ================================================================== *)
(** ** [src/run.ts] *)

Module Run.
Section WithWorld.
Variable w : World.

(** [import { getLekko } from "./lekko"], called with two arguments. *)
Variable getLekko : string -> string -> M (string + Error).

Definition runSetup : M (option Error) :=
  let version := core_getInput w "version" in
  if JsString.seq version EmptyString then
    ret (Some {| message := "a version was not provided" |})
  else
    let githubToken := core_getInput w "github_token" in
    if JsString.seq githubToken EmptyString then
      ret (Some {| message :=
        "No github_token supplied, won't be able to download lekko" |})
    else
      core_info ("Setting up Lekko version " ++ dq ++ version ++ dq) ;;;
      installDir <- getLekko version githubToken ;;
      match installDir with
      | inr e => ret (Some e)
      | inl installDir =>
          core_info ("Adding lekko binary to PATH. This is the install directory: "
                     ++ installDir) ;;;
          (if JsString.seq (os_platform w) "win32"
           then core_addPath installDir
           else core_addPath (path_join w installDir "bin")) ;;;
          binaryPath <- which_call w "lekko" true ;;
          if JsString.seq binaryPath EmptyString then
            ret (Some {| message := "lekko was not found on PATH" |})
          else
            core_info ("Successfully setup lekko version " ++ version) ;;;
            out <- execSync_call w (binaryPath ++ " --version") ;;
            core_info out ;;;
            ret None
      end.

Definition run : M unit :=
  try_catch
    (result <- runSetup ;;
     match result with
     | Some e => core_setFailed (message e)
     | None => ret tt
     end)
    (fun error =>
       match isError_thrown error with
       | Some e => core_setFailed (message e)
       | None => core_setFailed "Internal error"
       end).

End WithWorld.
End Run.

(** The action as linked: [run.ts] passes two arguments, the signature of
    the two-argument [getLekko]. *)
Definition action (w : World) : M unit := Run.run w (LekkoPrev.getLekko w).

(* ================================================================== *)
(** ** Vocabulary of the statements *)

(** [emits P m]: every event [m] adds, whatever the history, satisfies [P]. *)
Definition emits (A : Type) (P : Event -> Prop) (m : M A) : Prop :=
  forall h, Forall P (events m h).

(** [x] starts with the version prefix. *)
Definition startsWithV (x : string) : Prop := exists rest, x = "v" ++ rest.

(** The client [getDownloadURL] builds for a token. *)
Definition clientOf (w : World) (githubToken : string) : Octokit :=
  {| auth := githubToken; agent := requestAgentOf (env_http_proxy w) |}.

(** The request of [getGithubToken]. *)
Definition tokenRequest (apikey : string) : Event :=
  EvFetch Lekko.tokenEndpoint "POST"
          [("apikey", apikey); ("Content-Type", "application/json")] "{}".

Definition noTokenFound : Error := {| message := "No token found in response" |}.

(** What an event says about the credential in use: no token is exchanged,
    registry queries are authenticated with [tok] and the download carries
    it as bearer. *)
Definition carries (tok : string) (ev : Event) : Prop :=
  match ev with
  | EvFetch _ _ _ _ => False
  | EvListReleases client _ _ _ | EvReleaseByTag client _ _ _ =>
      auth client = tok
  | EvDownloadTool _ _ _ headers =>
      exists hs, headers = Some hs /\ In ("Authorization", "Bearer " ++ tok) hs
  | _ => True
  end.

(** The line [getLekko] logs before it resolves the URL. *)
Definition resolvingLine : string :=
  "Resolving the download URL for the current platform...".

(** The characters of a string. *)
Definition chars (s : string) : list ascii := list_ascii_of_string s.

(** What follows the URL in the line that reports the download, for a
    token of length [n] and first characters [p]. *)
Definition tokenSuffix (n : nat) (p : string) : string :=
  " using token of length " ++ JsString.of_nat n ++ ": " ++ p.

(** The tail of the line, read from its end. *)
Definition usingReversed : list ascii :=
  Eval cbv in List.rev (chars " using token of length ").

(** A registry query made with the client of [tok] on the repository of
    the CLI; the release list is asked for one release. *)
Definition registryQueryBy (w : World) (tok : string) (ev : Event) : Prop :=
  match ev with
  | EvListReleases client owner repo per_page =>
      client = clientOf w tok /\ owner = "lekkodev" /\ repo = "cli" /\
      per_page = 1
  | EvReleaseByTag client owner repo _ =>
      client = clientOf w tok /\ owner = "lekkodev" /\ repo = "cli"
  | _ => False
  end.

(** The one call of [getDownloadURL], when the host is supported. *)
Definition registryQuery (w : World) (version githubToken : string) : Event :=
  if JsString.seq version "latest"
  then EvListReleases (clientOf w githubToken) "lekkodev" "cli" 1
  else EvReleaseByTag (clientOf w githubToken) "lekkodev" "cli"
                      (releaseTagForVersion version).

(** A lookup in, or a write to, the tool cache under the key
    ("lekko", [version], host architecture). *)
Definition cacheKeyed (w : World) (version : string) (ev : Event) : Prop :=
  match ev with
  | EvFind tool v arch | EvCacheDir _ tool v arch =>
      tool = "lekko" /\ v = version /\ arch = os_arch w
  | _ => True
  end.

Definition is_setFailed (ev : Event) : bool :=
  match ev with EvSetFailed _ => true | _ => false end.

(** Calls of the path installer. *)
Definition is_install (ev : Event) : bool :=
  match ev with
  | EvAddPath _ | EvWhich _ _ | EvExecSync _ => true
  | _ => false
  end.

(** The stages of a fetch: 0 nothing yet, 1 the registry was queried, 2 the
    archive was downloaded, 3 it was extracted, 4 the cache was written.
    [staged n es] checks that every such call of [es] finds the run in the
    stage just before its own. *)
Fixpoint staged (stage : nat) (es : list Event) : bool :=
  match es with
  | [] => true
  | ev :: rest =>
      match ev with
      | EvListReleases _ _ _ _ | EvReleaseByTag _ _ _ _ =>
          Nat.eqb stage 0 && staged 1 rest
      | EvDownloadTool _ _ _ _ => Nat.eqb stage 1 && staged 2 rest
      | EvExtractTar _ => Nat.eqb stage 2 && staged 3 rest
      | EvCacheDir _ _ _ _ => Nat.eqb stage 3 && staged 4 rest
      | _ => staged stage rest
      end
  end.

(** The headers [getLekko] of [src/lekko.ts] gives to the download. *)
Definition downloadHeaders (tok : string) : Headers :=
  [("Accept", "application/octet-stream");
   ("Authorization", "Bearer " ++ tok);
   ("X-GitHub-Api-Version", "2022-11-28")].

(* ================================================================== *)
(** ** Concrete hosts *)

Module Example.

Definition linuxAsset : Asset :=
  {| name := "lekko_Linux_x86_64.tar.gz";
     url := "https://api.github.com/repos/lekkodev/cli/releases/assets/2" |}.

Definition darwinAsset : Asset :=
  {| name := "lekko_Darwin_arm64.tar.gz";
     url := "https://api.github.com/repos/lekkodev/cli/releases/assets/1" |}.

Definition release : Release := {| assets := [darwinAsset; linuxAsset] |}.

(** The action's inputs; an input that is not set reads as empty. *)
Definition inputs (version apikey github_token : string) (n : string) : string :=
  if String.eqb n "version" then version
  else if String.eqb n "apikey" then apikey
  else if String.eqb n "github_token" then github_token
  else EmptyString.

(** A host whose surroundings answer the same whatever happened before. *)
Definition host (arch platform : string) (input : string -> string)
           (cached : string) (exchange : Outcome Response)
           (releases : Outcome (list Release)) (found : string) : World :=
  {| os_arch := arch;
     os_platform := platform;
     env_http_proxy := None;
     core_getInput := input;
     path_join := fun a b => a ++ "/" ++ b;
     tc_find := fun _ _ _ _ => cached;
     fetch := fun _ _ _ _ _ => exchange;
     octokit_listReleases := fun _ _ _ _ _ => releases;
     octokit_releaseByTag := fun _ _ _ _ _ =>
       match releases with
       | Ret (r :: _) => Ret r
       | Ret [] => Throw (ThrownError "Not Found")
       | Throw e => Throw e
       end;
     tc_downloadTool := fun _ _ _ _ _ => Ret "/tmp/lekko.tar.gz";
     tc_extractTar := fun _ _ => Ret "/tmp/lekko";
     tc_cacheDir := fun _ _ _ version arch =>
       Ret ("/opt/hostedtoolcache/lekko/" ++ version ++ "/" ++ arch);
     io_which := fun _ _ _ => Ret found;
     cp_execSync := fun _ _ => Ret "lekko version v0.2.15" |}.

Definition granted (t : string) : Outcome Response :=
  Ret {| ok := true; statusText := "OK"; json := Ret {| token := Some t |} |}.

Definition denied : Outcome Response :=
  Ret {| ok := false; statusText := "Unauthorized";
         json := Throw (ThrownError "Unexpected end of JSON input") |}.

(** Linux on x64, nothing cached, one release with both assets. *)
Definition linux (input : string -> string) : World :=
  host "x64" "linux" input EmptyString (granted "ghs_exchanged")
       (Ret [release]) "/opt/hostedtoolcache/lekko/latest/x64/bin/lekko".

(** The same host with the tool already in the cache. *)
Definition linuxCached (input : string -> string) : World :=
  host "x64" "linux" input "/opt/hostedtoolcache/lekko/0.2.15/x64"
       (granted "ghs_exchanged") (Ret [release])
       "/opt/hostedtoolcache/lekko/0.2.15/x64/bin/lekko".

(** The same host when the registry has no release at all. *)
Definition linuxNoRelease (input : string -> string) : World :=
  host "x64" "linux" input EmptyString (granted "ghs_exchanged") (Ret [])
       EmptyString.

(** The same host when the token exchange is refused. *)
Definition linuxDenied (input : string -> string) : World :=
  host "x64" "linux" input EmptyString denied (Ret [release]) EmptyString.

(** The same host when the installed binary is not found afterwards. *)
Definition linuxLost (input : string -> string) : World :=
  host "x64" "linux" input EmptyString (granted "ghs_exchanged")
       (Ret [release]) EmptyString.

(** A 32-bit Windows host. *)
Definition windows32 (input : string -> string) : World :=
  host "ia32" "win32" input EmptyString (granted "ghs_exchanged")
       (Ret [release]) EmptyString.

(** A macOS host on arm64 behind a proxy that lets no download through. *)
Definition proxied (input : string -> string) : World :=
  {| os_arch := "arm64";
     os_platform := "darwin";
     env_http_proxy := Some "http://proxy.internal:3128";
     core_getInput := input;
     path_join := fun a b => a ++ "/" ++ b;
     tc_find := fun _ _ _ _ => EmptyString;
     fetch := fun _ _ _ _ _ => granted "ghs_exchanged";
     octokit_listReleases := fun _ _ _ _ _ => Ret [release];
     octokit_releaseByTag := fun _ _ _ _ _ => Ret release;
     tc_downloadTool := fun _ _ _ _ _ => Throw ThrownOther;
     tc_extractTar := fun _ _ => Ret "/tmp/lekko";
     tc_cacheDir := fun _ _ _ _ _ => Ret "/opt/hostedtoolcache/lekko";
     io_which := fun _ _ _ => Ret EmptyString;
     cp_execSync := fun _ _ => Ret EmptyString |}.

End Example.

(* ================================================================== *)
(** * Properties *)

(** ** Strings *)

Section StringFacts.

Lemma append_assoc (a b c : string) : (a ++ b) ++ c = a ++ b ++ c.
Proof. induction a as [|x a IH]; simpl; [reflexivity | now rewrite IH]. Qed.

Lemma append_nil_r (a : string) : a ++ EmptyString = a.
Proof. induction a as [|x a IH]; simpl; [reflexivity | now rewrite IH]. Qed.

Lemma substring_head (s b : string) :
  substring 0 (String.length s) (s ++ b) = s.
Proof.
  induction s as [|x s IH]; simpl.
  - destruct b; reflexivity.
  - now rewrite IH.
Qed.

Lemma substring_middle (a s b : string) :
  substring (String.length a) (String.length s) (a ++ s ++ b) = s.
Proof.
  induction a as [|x a IH]; simpl.
  - apply substring_head.
  - exact IH.
Qed.

(** An occurrence is found by [includes]. *)
Lemma includes_intro (a s b : string) :
  JsString.includes (a ++ s ++ b) s = true.
Proof.
  unfold JsString.includes, JsString.indexOf.
  destruct (index 0 s (a ++ s ++ b)) eqn:E; [reflexivity | exfalso].
  destruct s as [|c s].
  - apply index_correct4 in E. lia.
  - refine (index_correct3 _ (String.length a) _ _ E _ _ _).
    + discriminate.
    + lia.
    + apply substring_middle.
Qed.

End StringFacts.

(** ** The monad *)

Section MonadFacts.
Variables A B : Type.

Lemma events_bind (m : M A) (k : A -> M B) (h : History) :
  events (bind m k) h =
  (events m h ++
   match outcome m h with
   | Ret a => events (k a) (h ++ events m h)%list
   | Throw _ => []
   end)%list.
Proof.
  unfold events, outcome, bind.
  destruct (m h) as [es [a|e]]; simpl.
  - destruct (k a (h ++ es)%list); reflexivity.
  - now rewrite app_nil_r.
Qed.

Lemma outcome_bind (m : M A) (k : A -> M B) (h : History) :
  outcome (bind m k) h =
  match outcome m h with
  | Ret a => outcome (k a) (h ++ events m h)%list
  | Throw e => Throw e
  end.
Proof.
  unfold events, outcome, bind.
  destruct (m h) as [es [a|e]]; simpl; [|reflexivity].
  destruct (k a (h ++ es)%list); reflexivity.
Qed.

Lemma run_eq (m : M A) (h : History) : m h = (events m h, outcome m h).
Proof. unfold events, outcome. now destruct (m h). Qed.

End MonadFacts.

Section EmitsFacts.
Variable P : Event -> Prop.

Lemma emits_ret (A : Type) (a : A) : emits P (ret a).
Proof. intro h. constructor. Qed.

Lemma emits_throw (A : Type) (e : Thrown) : emits P (@throw A e).
Proof. intro h. constructor. Qed.

Lemma emits_settle (A : Type) (o : Outcome A) : emits P (settle o).
Proof. intro h. constructor. Qed.

Lemma emits_call (A : Type) (ev : Event) (f : History -> Outcome A) :
  P ev -> emits P (call ev f).
Proof. intros H h. repeat constructor. exact H. Qed.

Lemma emits_bind (A B : Type) (m : M A) (k : A -> M B) :
  emits P m -> (forall a, emits P (k a)) -> emits P (bind m k).
Proof.
  intros Hm Hk h. rewrite events_bind. apply Forall_app. split.
  - apply Hm.
  - destruct (outcome m h); [apply Hk | constructor].
Qed.

End EmitsFacts.

Section RunFacts.
Variable A : Type.

Lemma events_call (ev : Event) (f : History -> Outcome A) (h : History) :
  events (call ev f) h = [ev].
Proof. reflexivity. Qed.

Lemma outcome_call (ev : Event) (f : History -> Outcome A) (h : History) :
  outcome (call ev f) h = f h.
Proof. reflexivity. Qed.

Lemma events_ret (a : A) (h : History) : events (ret a) h = [].
Proof. reflexivity. Qed.

Lemma outcome_ret (a : A) (h : History) : outcome (ret a) h = Ret a.
Proof. reflexivity. Qed.

Lemma events_throw (e : Thrown) (h : History) : events (@throw A e) h = [].
Proof. reflexivity. Qed.

Lemma outcome_throw (e : Thrown) (h : History) :
  outcome (@throw A e) h = Throw e.
Proof. reflexivity. Qed.

Lemma events_settle (o : Outcome A) (h : History) : events (settle o) h = [].
Proof. reflexivity. Qed.

Lemma outcome_settle (o : Outcome A) (h : History) :
  outcome (settle o) h = o.
Proof. reflexivity. Qed.

Lemma events_try_catch (m : M A) (k : Thrown -> M A) (h : History) :
  events (try_catch m k) h =
  (events m h ++
   match outcome m h with
   | Ret _ => []
   | Throw e => events (k e) (h ++ events m h)%list
   end)%list.
Proof.
  unfold events, outcome, try_catch.
  destruct (m h) as [es [a|e]]; simpl.
  - now rewrite app_nil_r.
  - destruct (k e (h ++ es)%list); reflexivity.
Qed.

Lemma outcome_try_catch (m : M A) (k : Thrown -> M A) (h : History) :
  outcome (try_catch m k) h =
  match outcome m h with
  | Ret a => Ret a
  | Throw e => outcome (k e) (h ++ events m h)%list
  end.
Proof.
  unfold events, outcome, try_catch.
  destruct (m h) as [es [a|e]]; simpl; [reflexivity|].
  destruct (k e (h ++ es)%list); reflexivity.
Qed.

End RunFacts.

(** Unfolds the toolkit's calls and pushes [events] and [outcome] through
    the binds as far as the answers of the world are known. *)
Ltac run_unfold :=
  unfold core_info, core_setFailed, core_addPath, tc_find_call, fetch_call,
    listReleases_call, releaseByTag_call, downloadTool_call, extractTar_call,
    cacheDir_call, which_call, execSync_call in *.

Ltac run_step :=
  first
    [ rewrite events_bind | rewrite outcome_bind
    | rewrite events_call | rewrite outcome_call
    | rewrite events_ret | rewrite outcome_ret
    | rewrite events_throw | rewrite outcome_throw
    | rewrite events_settle | rewrite outcome_settle
    | rewrite events_try_catch | rewrite outcome_try_catch
    | rewrite <- app_assoc
    | progress cbn beta iota
    | progress cbn [List.app negb] ].

Ltac run_simpl := run_unfold; repeat run_step.

(** Walks a computation written with [bind], leaving the events of its
    calls to be checked against the predicate. *)
Ltac emits_walk :=
  repeat first
    [ apply emits_ret | apply emits_throw | apply emits_settle
    | apply emits_call
    | apply emits_bind; [| intro]
    | match goal with
      | |- emits _ (match ?x with _ => _ end) => destruct x
      | |- emits _ (if ?x then _ else _) => destruct x
      | |- emits _ (let (_, _) := ?x in _) => destruct x
      end ].

(* ================================================================== *)
(** ** Release tags *)

Lemma prefix_v (c : ascii) (x : string) :
  prefix "v" (String c x) = true <-> c = "v"%char.
Proof.
  rewrite prefix_correct.
  change (substring 0 (String.length "v") (String c x))
    with (String c (substring 0 0 x)).
  replace (substring 0 0 x) with EmptyString by (destruct x; reflexivity).
  split; [intros [= ->]; reflexivity | intros ->; reflexivity].
Qed.

Lemma indexOf_v_zero (x : string) :
  JsString.indexOf x versionPrefix = Some 0 <-> startsWithV x.
Proof.
  unfold JsString.indexOf, versionPrefix, startsWithV.
  destruct x as [|c x].
  - split; [discriminate | intros [r H]; discriminate H].
  - change (index 0 "v" (String c x))
      with (if prefix "v" (String c x) then Some 0
            else match index 0 "v" x with
                 | Some n => Some (S n)
                 | None => None
                 end).
    destruct (prefix "v" (String c x)) eqn:P.
    + apply prefix_v in P. subst c.
      split; [intros _; exists x; reflexivity | reflexivity].
    + split.
      * destruct (index 0 "v" x); discriminate.
      * intros [r H]. injection H as H _.
        apply (prefix_v c x) in H. congruence.
Qed.

Lemma releaseTagForVersion_prefixed (x : string) :
  startsWithV x -> releaseTagForVersion x = x.
Proof.
  intros H. apply indexOf_v_zero in H.
  unfold releaseTagForVersion. now rewrite H.
Qed.

Lemma releaseTagForVersion_bare (x : string) :
  ~ startsWithV x -> releaseTagForVersion x = "v" ++ x.
Proof.
  intros H. unfold releaseTagForVersion.
  destruct (JsString.indexOf x versionPrefix) as [[|n]|] eqn:E;
    try reflexivity.
  exfalso. apply H. now apply indexOf_v_zero.
Qed.

Lemma startsWithV_dec (x : string) : startsWithV x \/ ~ startsWithV x.
Proof.
  destruct (JsString.indexOf x versionPrefix) as [[|n]|] eqn:E.
  - left. now apply indexOf_v_zero.
  - right. intros H. apply indexOf_v_zero in H. congruence.
  - right. intros H. apply indexOf_v_zero in H. congruence.
Qed.

(** C5. [releaseTagForVersion x] is [x] when [x] starts with "v" and
    "v" followed by [x] otherwise, and applying it twice gives what applying
    it once gives. *)
Theorem releaseTagForVersion_spec (x : string) :
  (startsWithV x -> releaseTagForVersion x = x) /\
  (~ startsWithV x -> releaseTagForVersion x = "v" ++ x) /\
  releaseTagForVersion (releaseTagForVersion x) = releaseTagForVersion x.
Proof.
  split; [apply releaseTagForVersion_prefixed|].
  split; [apply releaseTagForVersion_bare|].
  destruct (startsWithV_dec x) as [H|H].
  - now rewrite !(releaseTagForVersion_prefixed H).
  - rewrite (releaseTagForVersion_bare H).
    apply releaseTagForVersion_prefixed. now exists x.
Qed.

Lemma releaseTagForVersion_spec_witness :
  (startsWithV "v0.2.15" /\ releaseTagForVersion "v0.2.15" = "v0.2.15") /\
  (~ startsWithV "0.2.15" /\ releaseTagForVersion "0.2.15" = "v0.2.15") /\
  releaseTagForVersion (releaseTagForVersion "0.2.15")
  = releaseTagForVersion "0.2.15".
Proof.
  assert (Y : startsWithV "v0.2.15") by (exists "0.2.15"; reflexivity).
  assert (N : ~ startsWithV "0.2.15") by (intros [r H]; discriminate H).
  split; [split; [exact Y|]|split; [split; [exact N|]|]].
  - exact (proj1 (releaseTagForVersion_spec "v0.2.15") Y).
  - exact (proj1 (proj2 (releaseTagForVersion_spec "0.2.15")) N).
  - exact (proj2 (proj2 (releaseTagForVersion_spec "0.2.15"))).
Defined.

(* ================================================================== *)
(** ** Platform resolution *)

Lemma seq_true (a b : string) : JsString.seq a b = true <-> a = b.
Proof. apply String.eqb_eq. Qed.

Lemma seq_false (a b : string) : JsString.seq a b = false <-> a <> b.
Proof. apply String.eqb_neq. Qed.

Lemma architectureSwitch_cases (arch : string) :
  match architectureSwitch arch with
  | inl tok => arch = "x64" /\ tok = "x86_64" \/ arch = "arm64" /\ tok = "arm64"
  | inr e => arch <> "x64" /\ arch <> "arm64" /\
             JsString.includes (message e) arch = true
  end.
Proof.
  unfold architectureSwitch.
  destruct (JsString.seq arch "x64") eqn:E1.
  { left. apply seq_true in E1. auto. }
  destruct (JsString.seq arch "arm64") eqn:E2.
  { right. apply seq_true in E2. auto. }
  apply seq_false in E1, E2. repeat split; trivial.
  cbn [message]. rewrite <- append_assoc. apply includes_intro.
Qed.

Lemma platformSwitch_cases (platform : string) :
  match platformSwitch platform with
  | inl tok => platform = "linux" /\ tok = "Linux" \/
               platform = "darwin" /\ tok = "Darwin"
  | inr e => platform <> "linux" /\ platform <> "darwin" /\
             JsString.includes (message e) platform = true
  end.
Proof.
  unfold platformSwitch.
  destruct (JsString.seq platform "linux") eqn:E1.
  { left. apply seq_true in E1. auto. }
  destruct (JsString.seq platform "darwin") eqn:E2.
  { right. apply seq_true in E2. auto. }
  apply seq_false in E1, E2. repeat split; trivial.
  cbn [message]. rewrite <- append_assoc. apply includes_intro.
Qed.

(** C1. Platform resolution yields tokens exactly for an architecture
    "x64" or "arm64" (tokens "x86_64", "arm64") with an operating system
    "linux" or "darwin" (tokens "Linux", "Darwin").  In every other case it
    is an error whose message contains the unsupported raw value: the
    architecture when that is unsupported, the operating system when the
    architecture is supported; [getDownloadURL] of either variant then
    returns this error and calls nothing. *)
Theorem platform_resolution (w : World) (version githubToken : string)
        (h : History) :
  match resolveTokens (os_arch w) (os_platform w) with
  | inl (architecture, platform) =>
      (os_arch w = "x64" /\ architecture = "x86_64" \/
       os_arch w = "arm64" /\ architecture = "arm64") /\
      (os_platform w = "linux" /\ platform = "Linux" \/
       os_platform w = "darwin" /\ platform = "Darwin")
  | inr e =>
      (os_arch w <> "x64" /\ os_arch w <> "arm64" /\
       JsString.includes (message e) (os_arch w) = true
       \/
       (os_arch w = "x64" \/ os_arch w = "arm64") /\
       os_platform w <> "linux" /\ os_platform w <> "darwin" /\
       JsString.includes (message e) (os_platform w) = true) /\
      Lekko.getDownloadURL w version githubToken h = ([], Ret (inr e)) /\
      LekkoPrev.getDownloadURL w version githubToken h = ([], Ret (inr e))
  end.
Proof.
  unfold Lekko.getDownloadURL, LekkoPrev.getDownloadURL, resolveTokens.
  pose proof (architectureSwitch_cases (os_arch w)) as Ha.
  pose proof (platformSwitch_cases (os_platform w)) as Hp.
  destruct (architectureSwitch (os_arch w)) as [a|e].
  - destruct (platformSwitch (os_platform w)) as [p|e].
    + split; assumption.
    + split; [right | split; reflexivity].
      split; [tauto | exact Hp].
  - split; [left; exact Ha | split; reflexivity].
Qed.

(* ================================================================== *)
(** ** Locating the asset of the latest release *)

Lemma includes_at (pre s post t : string) :
  t = pre ++ s ++ post -> JsString.includes t s = true.
Proof. intros ->. apply includes_intro. Qed.

Ltac includes_between pre post :=
  apply (@includes_at pre _ post); cbn [message];
  rewrite ?append_assoc; reflexivity.

Lemma scanAssets_first (wanted : string) (before : list Asset) (asset : Asset)
      (after : list Asset) :
  name asset = wanted ->
  (forall x, In x before -> name x <> wanted) ->
  scanAssets wanted (before ++ asset :: after) = Some (url asset).
Proof.
  intros Hn. induction before as [|b before IH]; intros Hb; simpl.
  - subst wanted. unfold JsString.seq. now rewrite String.eqb_refl.
  - assert (E : JsString.seq wanted (name b) = false).
    { apply seq_false. intros E. apply (Hb b); [now left | now symmetry]. }
    rewrite E. apply IH. intros x Hx. apply Hb. now right.
Qed.

Lemma scanAssets_none (wanted : string) (l : list Asset) :
  (forall x, In x l -> name x <> wanted) -> scanAssets wanted l = None.
Proof.
  induction l as [|b l IH]; intros Hb; simpl; [reflexivity|].
  assert (E : JsString.seq wanted (name b) = false).
  { apply seq_false. intros E. apply (Hb b); [now left | now symmetry]. }
  rewrite E. apply IH. intros x Hx. apply Hb. now right.
Qed.

Lemma unableToFindLatest_names (p a : string) :
  JsString.includes (message (unableToFindLatest p a)) p = true /\
  JsString.includes (message (unableToFindLatest p a)) a = true.
Proof.
  split.
  - includes_between
      ("Unable to find latest Lekko version for platform " ++ dq)
      (dq ++ " and architecture " ++ dq ++ a ++ dq ++ ".").
  - includes_between
      ("Unable to find latest Lekko version for platform " ++ dq ++ p ++ dq ++
       " and architecture " ++ dq)
      (dq ++ ".").
Qed.

Lemma unableToFindVersion_names (v p a : string) :
  JsString.includes (message (unableToFindVersion v p a)) p = true /\
  JsString.includes (message (unableToFindVersion v p a)) a = true.
Proof.
  split.
  - includes_between
      ("Unable to find Lekko version " ++ dq ++ v ++ dq ++ " for platform " ++ dq)
      (dq ++ " and architecture " ++ dq ++ a ++ dq ++ ".").
  - includes_between
      ("Unable to find Lekko version " ++ dq ++ v ++ dq ++ " for platform " ++
       dq ++ p ++ dq ++ " and architecture " ++ dq)
      (dq ++ ".").
Qed.

(** The run of [getDownloadURL] on "latest", in terms of the registry's
    answer. *)
Lemma getDownloadURL_latest (w : World) (githubToken : string) (h : History)
      (a p : string) :
  resolveTokens (os_arch w) (os_platform w) = inl (a, p) ->
  let query := EvListReleases (clientOf w githubToken) "lekkodev" "cli" 1 in
  let tail (notFound : Error) : Outcome (string + Error) :=
    match octokit_listReleases w h (clientOf w githubToken) "lekkodev" "cli" 1 with
    | Throw e => Throw e
    | Ret [] => Throw assetsOfUndefined
    | Ret (first :: _) =>
        match scanAssets (assetNameOf p a) (assets first) with
        | Some found => Ret (inl found)
        | None => Ret (inr notFound)
        end
    end in
  Lekko.getDownloadURL w "latest" githubToken h
  = ([query], tail (unableToFindLatest p a)) /\
  LekkoPrev.getDownloadURL w "latest" githubToken h
  = ([query], tail (unableToFindVersion "latest" p a)).
Proof.
  intros Hres. unfold Lekko.getDownloadURL, LekkoPrev.getDownloadURL.
  rewrite Hres. cbn -[resolveTokens scanAssets assetNameOf requestAgentOf].
  unfold bind, listReleases_call, call, clientOf.
  destruct (octokit_listReleases w h _ "lekkodev" "cli" 1) as [[|first rest]|e];
    cbn -[scanAssets assetNameOf requestAgentOf]; try (split; reflexivity).
  destruct (scanAssets (assetNameOf p a) (assets first)); split; reflexivity.
Qed.

(** C2. With version "latest" on a supported host, [getDownloadURL] makes
    one call, the release list with page size 1.  When the list has a first
    release it scans that release's assets for the name
    lekko_<OSToken>_<ArchToken>.tar.gz and returns the URL of the first
    asset so named; when no asset has that name it returns an error whose
    message contains the platform token and the architecture token. *)
Theorem latest_release_lookup (w : World) (githubToken : string) (h : History)
        (a p : string) (first : Release) (rest : list Release) :
  resolveTokens (os_arch w) (os_platform w) = inl (a, p) ->
  octokit_listReleases w h (clientOf w githubToken) "lekkodev" "cli" 1
  = Ret (first :: rest) ->
  let wanted := "lekko_" ++ p ++ "_" ++ a ++ ".tar.gz" in
  let query := EvListReleases (clientOf w githubToken) "lekkodev" "cli" 1 in
  (events (Lekko.getDownloadURL w "latest" githubToken) h = [query] /\
   events (LekkoPrev.getDownloadURL w "latest" githubToken) h = [query]) /\
  (forall before asset after,
      assets first = (before ++ asset :: after)%list ->
      name asset = wanted ->
      (forall x, In x before -> name x <> wanted) ->
      outcome (Lekko.getDownloadURL w "latest" githubToken) h
      = Ret (inl (url asset)) /\
      outcome (LekkoPrev.getDownloadURL w "latest" githubToken) h
      = Ret (inl (url asset))) /\
  ((forall x, In x (assets first) -> name x <> wanted) ->
   exists e e',
     outcome (Lekko.getDownloadURL w "latest" githubToken) h = Ret (inr e) /\
     outcome (LekkoPrev.getDownloadURL w "latest" githubToken) h = Ret (inr e') /\
     JsString.includes (message e) p = true /\
     JsString.includes (message e) a = true /\
     JsString.includes (message e') p = true /\
     JsString.includes (message e') a = true).
Proof.
  intros Hres Hlist wanted query.
  destruct (getDownloadURL_latest w githubToken h Hres) as [E1 E2].
  rewrite Hlist in E1, E2. fold query in E1, E2.
  change (assetNameOf p a) with wanted in E1, E2.
  unfold events, outcome. rewrite E1, E2. cbn [fst snd].
  split; [split; reflexivity|]. split.
  - intros before asset after Ha Hn Hb.
    rewrite Ha, (@scanAssets_first wanted before asset after Hn Hb).
    split; reflexivity.
  - intros Hnone. rewrite (@scanAssets_none wanted _ Hnone).
    exists (unableToFindLatest p a), (unableToFindVersion "latest" p a).
    destruct (unableToFindLatest_names p a), (unableToFindVersion_names "latest" p a).
    repeat split; assumption.
Qed.

(* ================================================================== *)
(** ** Cache hit *)

Lemma getLekko_hit (w : World) (version apikey githubToken : string)
      (h : History) (p : string) :
  tc_find w h "lekko" version (os_arch w) = p -> p <> EmptyString ->
  Lekko.getLekko w version apikey githubToken h
  = ([EvFind "lekko" version (os_arch w); EvInfo ("Found in cache @ " ++ p)],
     Ret (inl p)) /\
  LekkoPrev.getLekko w version githubToken h
  = ([EvFind "lekko" version (os_arch w); EvInfo ("Found in cache @ " ++ p)],
     Ret (inl p)).
Proof.
  intros Hfind Hp. apply seq_false in Hp.
  rewrite (run_eq (Lekko.getLekko _ _ _ _)), (run_eq (LekkoPrev.getLekko _ _ _)).
  unfold Lekko.getLekko, LekkoPrev.getLekko. run_unfold.
  rewrite !events_bind, !outcome_bind, !events_call, !outcome_call.
  rewrite Hfind, Hp. run_simpl. split; reflexivity.
Qed.

(** C3. When the tool cache answers the lookup ("lekko", version, host
    architecture) with a non-empty path, [getLekko] of either variant
    returns that path; the lookup and one line of log are all it does: no
    token exchange, no registry query, no download, no extraction and no
    cache write. *)
Theorem cache_hit_no_effects (w : World) (version apikey githubToken : string)
        (h : History) (p : string) :
  tc_find w h "lekko" version (os_arch w) = p -> p <> EmptyString ->
  (outcome (Lekko.getLekko w version apikey githubToken) h = Ret (inl p) /\
   outcome (LekkoPrev.getLekko w version githubToken) h = Ret (inl p)) /\
  (forall ev,
      In ev (events (Lekko.getLekko w version apikey githubToken) h) \/
      In ev (events (LekkoPrev.getLekko w version githubToken) h) ->
      is_token_exchange ev = false /\ is_registry_query ev = false /\
      is_download ev = false /\ is_extraction ev = false /\
      is_cache_write ev = false /\
      is_network ev = false /\ is_mutation ev = false).
Proof.
  intros Hfind Hp.
  destruct (getLekko_hit w version apikey githubToken h Hfind Hp) as [E1 E2].
  unfold outcome, events. rewrite E1, E2. cbn [fst snd].
  split; [split; reflexivity|].
  intros ev [H|H]; cbn [In] in H;
    destruct H as [<-|[<-|[]]]; repeat split; reflexivity.
Qed.

(* ================================================================== *)
(** ** Credential resolution *)

Lemma getGithubToken_run (w : World) (apikey : string) (h : History) :
  Lekko.getGithubToken w apikey h =
  ([tokenRequest apikey],
   match fetch w h Lekko.tokenEndpoint "POST"
               [("apikey", apikey); ("Content-Type", "application/json")] "{}"
   with
   | Throw e => Throw e
   | Ret resp =>
       if ok resp then
         match json resp with
         | Throw e => Throw e
         | Ret data =>
             match token data with
             | None => Ret (inr noTokenFound)
             | Some t => if Nat.eqb (String.length t) 0
                         then Ret (inr noTokenFound) else Ret (inl t)
             end
         end
       else Ret (inr {| message := "Error getting developer access token: " ++
                                   statusText resp |})
   end).
Proof.
  rewrite run_eq. unfold Lekko.getGithubToken, tokenRequest. run_unfold.
  rewrite events_bind, outcome_bind, events_call, outcome_call.
  destruct (fetch w h _ _ _ _) as [resp|e]; [|now run_simpl].
  destruct (ok resp); run_simpl; [|reflexivity].
  destruct (json resp) as [data|e]; [|now run_simpl].
  run_simpl. unfold JsString.length.
  destruct (token data) as [t|]; [|now run_simpl].
  destruct (Nat.eqb (String.length t) 0); now run_simpl.
Qed.

Lemma getDownloadURL_carries (w : World) (version tok : string) :
  emits (carries tok) (Lekko.getDownloadURL w version tok).
Proof.
  unfold Lekko.getDownloadURL, firstAssets. run_unfold.
  emits_walk; reflexivity.
Qed.

Lemma fetchWith_carries (w : World) (version tok : string) :
  emits (carries tok) (Lekko.fetchWith w version tok).
Proof.
  unfold Lekko.fetchWith. run_unfold.
  apply emits_bind; [apply emits_call; exact I | intros _].
  apply emits_bind; [apply getDownloadURL_carries | intros [u|e]].
  - emits_walk; try exact I.
    cbn [carries]. eexists. split; [reflexivity|]. cbn [In]. auto.
  - apply emits_ret.
Qed.

(** [getLekko] after a cache miss. *)
Lemma getLekko_miss (w : World) (version apikey githubToken : string)
      (h : History) :
  tc_find w h "lekko" version (os_arch w) = EmptyString ->
  let find := EvFind "lekko" version (os_arch w) in
  let retrieving :=
    EvInfo "Retrieving developer github token for your api key..." in
  Lekko.getLekko w version apikey githubToken h =
  if Nat.ltb 0 (String.length apikey) then
    let h1 := (h ++ [find; retrieving])%list in
    match outcome (Lekko.getGithubToken w apikey) h1 with
    | Ret (inl tok) =>
        let h2 := (h ++ [find; retrieving; tokenRequest apikey])%list in
        (find :: retrieving :: tokenRequest apikey ::
           events (Lekko.fetchWith w version tok) h2,
         outcome (Lekko.fetchWith w version tok) h2)
    | Ret (inr e) => ([find; retrieving; tokenRequest apikey], Ret (inr e))
    | Throw e => ([find; retrieving; tokenRequest apikey], Throw e)
    end
  else
    (find :: events (Lekko.fetchWith w version githubToken) (h ++ [find]),
     outcome (Lekko.fetchWith w version githubToken) (h ++ [find])).
Proof.
  intros Hfind find retrieving.
  rewrite run_eq. unfold Lekko.getLekko. run_unfold.
  rewrite events_bind, outcome_bind, events_call, outcome_call, Hfind.
  change (JsString.seq EmptyString EmptyString) with true.
  unfold JsString.length. cbn [negb].
  destruct (Nat.ltb 0 (String.length apikey)).
  - run_simpl. fold find retrieving.
    assert (Ev : events (Lekko.getGithubToken w apikey)
                        (h ++ [find; retrieving]) = [tokenRequest apikey]).
    { unfold events. now rewrite getGithubToken_run. }
    rewrite Ev.
    destruct (outcome (Lekko.getGithubToken w apikey) (h ++ [find; retrieving]))
      as [[tok|e]|e]; run_simpl; reflexivity.
  - run_simpl. reflexivity.
Qed.

Lemma nonempty_length (s : string) :
  Nat.ltb 0 (String.length s) = negb (JsString.seq s EmptyString).
Proof. destruct s; reflexivity. Qed.

Lemma carries_no_exchange (tok : string) (es : list Event) :
  Forall (carries tok) es -> filter is_token_exchange es = [].
Proof.
  induction 1 as [|ev es Hev _ IH]; [reflexivity|].
  cbn [filter]. rewrite IH. destruct ev; try reflexivity. destruct Hev.
Qed.

(* ================================================================== *)
(** ** [runSetup] and [run] *)

Section RunProperties.
Variable w : World.
Variable getLekko : string -> string -> M (string + Error).

Lemma runSetup_without_github_token (h : History) :
  core_getInput w "version" <> EmptyString ->
  core_getInput w "github_token" = EmptyString ->
  Run.runSetup w getLekko h =
  ([], Ret (Some {| message :=
     "No github_token supplied, won't be able to download lekko" |})).
Proof.
  intros Hv Ht. apply seq_false in Hv. unfold Run.runSetup.
  rewrite Hv, Ht. reflexivity.
Qed.

Lemma run_outcome (h : History) : outcome (Run.run w getLekko) h = Ret tt.
Proof.
  unfold Run.run. rewrite outcome_try_catch, outcome_bind.
  destruct (outcome (Run.runSetup w getLekko) h) as [[e|]|e].
  - run_simpl. reflexivity.
  - run_simpl. reflexivity.
  - destruct e; run_simpl; reflexivity.
Qed.

Lemma run_events_thrown (h : History) (e : Thrown) :
  outcome (Run.runSetup w getLekko) h = Throw e ->
  events (Run.run w getLekko) h =
  (events (Run.runSetup w getLekko) h ++
   [EvSetFailed match e with
                | ThrownError m => m
                | ThrownOther => "Internal error"
                end])%list.
Proof.
  intros H. unfold Run.run.
  rewrite events_try_catch, outcome_bind, events_bind, H, app_nil_r.
  destruct e; run_simpl; reflexivity.
Qed.

End RunProperties.

(** C6, on the code.  [runSetup] stops with the configuration error whenever
    the [github_token] input is empty; the [apikey] input is never read.
    Here the inputs are a version and an API key. *)
Theorem runSetup_apikey_only :
  let w := Example.linux (Example.inputs "v0.2.15" "lekko_apikey" EmptyString) in
  core_getInput w "apikey" = "lekko_apikey" /\
  core_getInput w "github_token" = EmptyString /\
  Run.runSetup w (LekkoPrev.getLekko w) [] =
  ([], Ret (Some {| message :=
     "No github_token supplied, won't be able to download lekko" |})) /\
  action w [] =
  ([EvSetFailed "No github_token supplied, won't be able to download lekko"],
   Ret tt).
Proof. repeat split. Qed.

(** C7. [run] never throws.  When the setup chain throws, [run] adds to the
    events of the chain one [core.setFailed], with the message of the
    thrown value when it has one and with "Internal error" otherwise. *)
Theorem run_catches_everything (w : World)
        (getLekko : string -> string -> M (string + Error)) (h : History) :
  outcome (Run.run w getLekko) h = Ret tt /\
  (forall e, outcome (Run.runSetup w getLekko) h = Throw e ->
     events (Run.run w getLekko) h =
     (events (Run.runSetup w getLekko) h ++
      [EvSetFailed match e with
                   | ThrownError m => m
                   | ThrownOther => "Internal error"
                   end])%list).
Proof.
  split; [apply run_outcome | apply run_events_thrown].
Qed.

Lemma run_catches_everything_witness :
  let w := Example.linuxNoRelease (Example.inputs "latest" EmptyString "ghp_token") in
  outcome (Run.runSetup w (LekkoPrev.getLekko w)) [] = Throw assetsOfUndefined /\
  outcome (action w) [] = Ret tt /\
  events (action w) [] =
  (events (Run.runSetup w (LekkoPrev.getLekko w)) [] ++
   [EvSetFailed "Cannot read properties of undefined (reading 'assets')"])%list.
Proof.
  intro w.
  assert (T : outcome (Run.runSetup w (LekkoPrev.getLekko w)) []
              = Throw assetsOfUndefined) by reflexivity.
  split; [exact T|].
  destruct (run_catches_everything w (LekkoPrev.getLekko w) []) as [R E].
  split; [exact R | exact (E _ T)].
Defined.

(* ================================================================== *)
(** ** Installing on the search path *)

(** C8. When both inputs are set and the fetch returns the install
    directory [d], [runSetup] adds [d] itself to the search path on "win32"
    and [d] joined with "bin" on every other platform, then resolves
    "lekko" on the path; when the resolution is empty it returns the error
    "lekko was not found on PATH". *)
Theorem path_installer (w : World)
        (getLekko : string -> string -> M (string + Error)) (h : History)
        (fetched : list Event) (d : string) :
  let version := core_getInput w "version" in
  let githubToken := core_getInput w "github_token" in
  let setting := EvInfo ("Setting up Lekko version " ++ dq ++ version ++ dq) in
  let adding :=
    EvInfo ("Adding lekko binary to PATH. This is the install directory: " ++ d) in
  let dir := if String.eqb (os_platform w) "win32" then d
             else path_join w d "bin" in
  let before := (setting :: fetched ++ [adding; EvAddPath dir])%list in
  version <> EmptyString -> githubToken <> EmptyString ->
  getLekko version githubToken (h ++ [setting])%list = (fetched, Ret (inl d)) ->
  (exists rest,
      events (Run.runSetup w getLekko) h
      = (before ++ EvWhich "lekko" true :: rest)%list) /\
  (io_which w (h ++ before) "lekko" true = Ret EmptyString ->
   Run.runSetup w getLekko h =
   ((before ++ [EvWhich "lekko" true])%list,
    Ret (Some {| message := "lekko was not found on PATH" |}))).
Proof.
  intros version githubToken setting adding dir before Hv Ht Hget.
  apply seq_false in Hv, Ht.
  assert (R : Run.runSetup w getLekko h =
    match io_which w (h ++ before) "lekko" true with
    | Throw e => ((before ++ [EvWhich "lekko" true])%list, Throw e)
    | Ret binaryPath =>
        if JsString.seq binaryPath EmptyString then
          ((before ++ [EvWhich "lekko" true])%list,
           Ret (Some {| message := "lekko was not found on PATH" |}))
        else
          let done := EvInfo ("Successfully setup lekko version " ++ version) in
          let exec := EvExecSync (binaryPath ++ " --version") in
          let h' := (h ++ before ++ [EvWhich "lekko" true; done])%list in
          match cp_execSync w h' (binaryPath ++ " --version") with
          | Throw e => ((before ++ [EvWhich "lekko" true; done; exec])%list,
                        Throw e)
          | Ret out => ((before ++ [EvWhich "lekko" true; done; exec;
                                    EvInfo out])%list, Ret None)
          end
    end).
  { rewrite run_eq. unfold Run.runSetup.
    fold version githubToken. rewrite Hv, Ht.
    run_unfold. fold setting.
    rewrite events_bind, outcome_bind, events_call, outcome_call.
    cbn beta iota. rewrite events_bind, outcome_bind.
    assert (Eg : events (getLekko version githubToken) (h ++ [setting]) = fetched)
      by (unfold events; now rewrite Hget).
    assert (Og : outcome (getLekko version githubToken) (h ++ [setting])
                 = Ret (inl d))
      by (unfold outcome; now rewrite Hget).
    rewrite Eg, Og. cbn beta iota. fold adding.
    unfold JsString.seq at 1 3. fold dir.
    assert (P : forall h0,
       events (if String.eqb (os_platform w) "win32"
               then call (EvAddPath d) (fun _ => Ret tt)
               else call (EvAddPath (path_join w d "bin")) (fun _ => Ret tt)) h0
       = [EvAddPath dir] /\
       outcome (if String.eqb (os_platform w) "win32"
                then call (EvAddPath d) (fun _ => Ret tt)
                else call (EvAddPath (path_join w d "bin")) (fun _ => Ret tt)) h0
       = Ret tt).
    { intros h0. unfold dir.
      destruct (String.eqb (os_platform w) "win32"); split; reflexivity. }
    run_simpl.
    rewrite !(proj1 (P _)), !(proj2 (P _)). run_simpl.
    unfold before. cbn [List.app]. rewrite <- !app_assoc. cbn [List.app].
    destruct (io_which w _ "lekko" true) as [binaryPath|e]; [|reflexivity].
    destruct (JsString.seq binaryPath EmptyString); run_simpl; [reflexivity|].
    cbv zeta.
    destruct (cp_execSync w _ _) as [out|e]; run_simpl; reflexivity. }
  split.
  - unfold events. rewrite R.
    destruct (io_which w (h ++ before) "lekko" true) as [binaryPath|e].
    + destruct (JsString.seq binaryPath EmptyString).
      * exists []. reflexivity.
      * cbv zeta. destruct (cp_execSync w _ _); eexists; reflexivity.
    + exists []. reflexivity.
  - intros Hw. rewrite R, Hw. reflexivity.
Qed.

Lemma path_installer_witness :
  let w := Example.linuxLost (Example.inputs "latest" EmptyString "ghp_token") in
  let d := "/opt/hostedtoolcache/lekko/latest/x64" in
  outcome (LekkoPrev.getLekko w "latest" "ghp_token")
          [EvInfo ("Setting up Lekko version " ++ dq ++ "latest" ++ dq)]
  = Ret (inl d) /\
  In (EvAddPath (d ++ "/bin")) (events (Run.runSetup w (LekkoPrev.getLekko w)) []) /\
  outcome (Run.runSetup w (LekkoPrev.getLekko w)) []
  = Ret (Some {| message := "lekko was not found on PATH" |}).
Proof.
  intros w d.
  split; [reflexivity|].
  destruct (@path_installer w (LekkoPrev.getLekko w) []
              (events (LekkoPrev.getLekko w "latest" "ghp_token")
                 [EvInfo ("Setting up Lekko version " ++ dq ++ "latest" ++ dq)])
              d) as [[rest Hev] Hlost].
  - discriminate.
  - discriminate.
  - reflexivity.
  - split.
    + rewrite Hev. apply in_or_app. left. cbn [List.app].
      right. apply in_or_app. right. right. left. reflexivity.
    + unfold outcome. rewrite Hlost; reflexivity.
Defined.

(* ================================================================== *)
(** ** The two-argument variant after a cache miss *)

Lemma getLekkoPrev_miss (w : World) (version githubToken : string) (h : History) :
  tc_find w h "lekko" version (os_arch w) = EmptyString ->
  let find := EvFind "lekko" version (os_arch w) in
  let h1 := (h ++ [find; EvInfo resolvingLine])%list in
  match LekkoPrev.getDownloadURL w version githubToken h1 with
  | (es, Ret (inl downloadURL)) =>
      exists rest,
        events (LekkoPrev.getLekko w version githubToken) h =
        (find :: EvInfo resolvingLine :: es ++
         EvInfo (LekkoPrev.downloadingLine version downloadURL githubToken) ::
         rest)%list
  | (es, Ret (inr e)) =>
      LekkoPrev.getLekko w version githubToken h =
      (find :: EvInfo resolvingLine :: es, Ret (inr e))
  | (es, Throw e) =>
      LekkoPrev.getLekko w version githubToken h =
      (find :: EvInfo resolvingLine :: es, Throw e)
  end.
Proof.
  intros Hfind find h1.
  pose proof (run_eq (LekkoPrev.getDownloadURL w version githubToken) h1) as D.
  rewrite D.
  assert (R : LekkoPrev.getLekko w version githubToken h
              = (events (LekkoPrev.getLekko w version githubToken) h,
                 outcome (LekkoPrev.getLekko w version githubToken) h))
    by apply run_eq.
  unfold LekkoPrev.getLekko in R at 2 3. run_unfold.
  rewrite events_bind, outcome_bind, events_call, outcome_call, Hfind in R.
  change (JsString.seq EmptyString EmptyString) with true in R.
  cbn [negb] in R. cbn beta iota in R.
  rewrite events_bind, outcome_bind, events_call, outcome_call in R.
  cbn beta iota in R.
  rewrite events_bind, outcome_bind in R.
  rewrite <- !app_assoc in R. cbn [List.app] in R.
  fold find resolvingLine in R. fold h1 in R.
  destruct (outcome (LekkoPrev.getDownloadURL w version githubToken) h1)
    as [[downloadURL|e]|e].
  - eexists. unfold events at 1. rewrite R. cbn [fst].
    rewrite events_bind, events_call. cbn [List.app]. reflexivity.
  - rewrite R. run_simpl. now rewrite app_nil_r.
  - rewrite R. now rewrite app_nil_r.
Qed.

(** [getDownloadURL] writes nothing to the log. *)
Lemma getDownloadURLPrev_log (w : World) (version githubToken : string)
      (h : History) :
  log (events (LekkoPrev.getDownloadURL w version githubToken) h) = [].
Proof.
  assert (E : emits (fun ev => log [ev] = [])
                    (LekkoPrev.getDownloadURL w version githubToken)).
  { unfold LekkoPrev.getDownloadURL, firstAssets. run_unfold.
    emits_walk; reflexivity. }
  specialize (E h). induction E as [|ev es Hev _ IH]; [reflexivity|].
  destruct ev; try discriminate Hev; exact IH.
Qed.

Lemma log_app (a b : list Event) : log (a ++ b) = (log a ++ log b)%list.
Proof.
  induction a as [|ev a IH]; [reflexivity|].
  destruct ev; cbn [List.app log]; rewrite IH; reflexivity.
Qed.

(* ================================================================== *)
(** ** An empty release list *)

(** C9. With version "latest" and an empty release list, [getDownloadURL]
    of either variant does not return the asset-not-found error: reading
    the assets of the first release throws.  Nothing on the way catches it:
    it leaves [getLekko] and [runSetup] as an exception, and the handler of
    [run] is what marks the run failed, with the message of the exception. *)
Theorem latest_empty_release_list (w : World) (h : History) (a p : string) :
  let githubToken := core_getInput w "github_token" in
  let setting := EvInfo ("Setting up Lekko version " ++ dq ++ "latest" ++ dq) in
  let find := EvFind "lekko" "latest" (os_arch w) in
  let query := EvListReleases (clientOf w githubToken) "lekkodev" "cli" 1 in
  let h3 := (h ++ [setting; find; EvInfo resolvingLine])%list in
  core_getInput w "version" = "latest" ->
  githubToken <> EmptyString ->
  tc_find w (h ++ [setting]) "lekko" "latest" (os_arch w) = EmptyString ->
  resolveTokens (os_arch w) (os_platform w) = inl (a, p) ->
  octokit_listReleases w h3 (clientOf w githubToken) "lekkodev" "cli" 1 = Ret [] ->
  (outcome (Lekko.getDownloadURL w "latest" githubToken) h3
   = Throw assetsOfUndefined /\
   outcome (LekkoPrev.getDownloadURL w "latest" githubToken) h3
   = Throw assetsOfUndefined) /\
  outcome (LekkoPrev.getLekko w "latest" githubToken) (h ++ [setting])
  = Throw assetsOfUndefined /\
  outcome (Run.runSetup w (LekkoPrev.getLekko w)) h = Throw assetsOfUndefined /\
  action w h =
  ([setting; find; EvInfo resolvingLine; query;
    EvSetFailed "Cannot read properties of undefined (reading 'assets')"],
   Ret tt).
Proof.
  intros githubToken setting find query h3 Hv Ht Hfind Hres Hlist.
  destruct (getDownloadURL_latest w githubToken h3 Hres) as [E1 E2].
  rewrite Hlist in E1, E2. fold query in E1, E2.
  pose proof (getLekkoPrev_miss w "latest" githubToken (h ++ [setting]) Hfind) as G.
  cbv zeta in G. rewrite <- app_assoc in G. cbn [List.app] in G.
  fold find h3 in G. rewrite E2 in G. cbn [List.app] in G.
  assert (S : Run.runSetup w (LekkoPrev.getLekko w) h
              = ([setting; find; EvInfo resolvingLine; query],
                 Throw assetsOfUndefined)).
  { rewrite run_eq. unfold Run.runSetup. fold githubToken.
    apply seq_false in Ht. rewrite Hv, Ht.
    change (JsString.seq "latest" EmptyString) with false. cbn beta iota.
    run_unfold. fold setting.
    rewrite events_bind, outcome_bind, events_call, outcome_call.
    cbn beta iota. rewrite events_bind, outcome_bind.
    unfold events at 1, outcome at 1 2. rewrite G. reflexivity. }
  split; [unfold outcome; rewrite E1, E2; split; reflexivity|].
  split; [unfold outcome; rewrite G; reflexivity|].
  split; [unfold outcome; rewrite S; reflexivity|].
  rewrite run_eq. unfold action.
  rewrite run_outcome, (@run_events_thrown w _ h assetsOfUndefined).
  - unfold events. rewrite S. reflexivity.
  - unfold outcome. rewrite S. reflexivity.
Qed.

Lemma latest_empty_release_list_witness :
  let w := Example.linuxNoRelease (Example.inputs "latest" EmptyString "ghp_token") in
  outcome (Lekko.getDownloadURL w "latest" "ghp_token")
          [EvInfo ("Setting up Lekko version " ++ dq ++ "latest" ++ dq);
           EvFind "lekko" "latest" "x64"; EvInfo resolvingLine]
  = Throw assetsOfUndefined /\
  snd (action w []) = Ret tt /\
  last (fst (action w [])) (EvInfo EmptyString)
  = EvSetFailed "Cannot read properties of undefined (reading 'assets')".
Proof.
  intro w.
  destruct (@latest_empty_release_list w [] "x86_64" "Linux")
    as [[E1 _] [_ [_ A]]]; try reflexivity; try discriminate.
  split; [exact E1|]. rewrite A. split; reflexivity.
Defined.

(* ================================================================== *)
(** ** The token in the log of the two-argument variant *)

Section TokenLine.

Lemma chars_app (a b : string) : chars (a ++ b) = (chars a ++ chars b)%list.
Proof.
  induction a as [|c a IH]; [reflexivity|].
  cbn [append chars list_ascii_of_string List.app].
  f_equal. exact IH.
Qed.

Lemma chars_inj (a b : string) : chars a = chars b -> a = b.
Proof.
  intros H.
  rewrite <- (string_of_list_ascii_of_string a),
          <- (string_of_list_ascii_of_string b).
  unfold chars in H. now rewrite H.
Qed.

Lemma chars_length (a : string) : List.length (chars a) = String.length a.
Proof. induction a as [|c a IH]; [reflexivity|]. simpl. now rewrite IH. Qed.

Lemma slice0_length (n : nat) (s : string) :
  String.length (JsString.slice0 n s) = Nat.min (String.length s) n.
Proof.
  unfold JsString.slice0. revert s.
  induction n as [|n IH]; intros [|c s]; simpl; auto.
Qed.

Lemma of_nat_digits (n : nat) :
  Forall (fun c => JsString.is_digit c = true) (chars (JsString.of_nat n)).
Proof.
  unfold JsString.of_nat. induction (Nat.to_uint n) as [|d IH|d IH|d IH|d IH|d IH
    |d IH|d IH|d IH|d IH|d IH]; simpl; constructor; trivial.
Qed.

Lemma of_nat_inj (n m : nat) : JsString.of_nat n = JsString.of_nat m -> n = m.
Proof.
  unfold JsString.of_nat. intros H.
  apply DecimalNat.Unsigned.to_uint_inj.
  assert (S : Some (Nat.to_uint n) = Some (Nat.to_uint m))
    by (rewrite <- !NilEmpty.usu; now rewrite H).
  now injection S.
Qed.

Lemma app_same_length (A : Type) (l1 l2 r1 r2 : list A) :
  List.length l1 = List.length l2 ->
  (l1 ++ r1 = l2 ++ r2)%list -> l1 = l2 /\ r1 = r2.
Proof.
  revert l2. induction l1 as [|x l1 IH]; intros [|y l2] L H;
    try discriminate L.
  - split; [reflexivity | exact H].
  - injection L as L. injection H as -> H.
    destruct (IH l2 L H) as [-> ->]. split; reflexivity.
Qed.

(** A run of digits is delimited by the character that is no digit. *)
Lemma digits_delimited (d1 d2 : list ascii) (c1 c2 : ascii)
      (r1 r2 : list ascii) :
  Forall (fun c => JsString.is_digit c = true) d1 ->
  Forall (fun c => JsString.is_digit c = true) d2 ->
  JsString.is_digit c1 = false -> JsString.is_digit c2 = false ->
  (d1 ++ c1 :: r1 = d2 ++ c2 :: r2)%list -> d1 = d2.
Proof.
  intros H1. revert d2.
  induction H1 as [|x d1 Hx _ IH]; intros d2 H2 N1 N2 E.
  - destruct H2 as [|y d2 Hy _]; [reflexivity|].
    injection E as -> _. congruence.
  - destruct H2 as [|y d2 Hy H2].
    + injection E as -> _. congruence.
    + injection E as -> E. f_equal. now apply IH.
Qed.

Lemma tokenSuffix_reversed (a : string) (n : nat) (p : string) :
  List.rev (chars (a ++ tokenSuffix n p)) =
  (List.rev (chars p) ++ " "%char :: ":"%char ::
   List.rev (chars (JsString.of_nat n)) ++ usingReversed ++ List.rev (chars a))%list.
Proof.
  unfold tokenSuffix. rewrite !chars_app, !List.rev_app_distr.
  change (List.rev (chars ": ")) with [" "%char; ":"%char].
  change (List.rev (chars " using token of length ")) with usingReversed.
  rewrite <- !app_assoc. reflexivity.
Qed.

(** A shorter prefix cannot be read as a longer one: the two characters
    in front of the longer prefix are never ": ". *)
Lemma prefix_lengths_clash (k : nat) (p1 p2 y1 x2 : list ascii) :
  k < 5 -> List.length p1 = k -> k < List.length p2 -> List.length p2 <= 5 ->
  (List.rev p1 ++ " "%char :: ":"%char ::
     List.rev (chars (JsString.of_nat k)) ++ usingReversed ++ y1
   = List.rev p2 ++ " "%char :: ":"%char :: x2)%list -> False.
Proof.
  intros Hk L1 L12 L2 E.
  destruct p2 as [|a2 [|b2 [|c2 [|d2 [|e2 [|f2 p2]]]]]];
    cbn [List.length] in L2, L12; try lia;
    destruct p1 as [|a1 [|b1 [|c1 [|d1 [|e1 p1]]]]];
    cbn [List.length] in L1; subst k; try lia;
    cbn in E; discriminate E.
Qed.

(** The line determines the length and the prefix it reports. *)
Lemma tokenSuffix_inj (a1 a2 : string) (t1 t2 : string) :
  a1 ++ tokenSuffix (String.length t1) (JsString.slice0 5 t1)
  = a2 ++ tokenSuffix (String.length t2) (JsString.slice0 5 t2) ->
  String.length t1 = String.length t2 /\
  JsString.slice0 5 t1 = JsString.slice0 5 t2.
Proof.
  intros E. apply (f_equal chars), (f_equal (@List.rev ascii)) in E.
  rewrite !tokenSuffix_reversed in E.
  pose proof (slice0_length 5 t1) as S1.
  pose proof (slice0_length 5 t2) as S2.
  rewrite <- chars_length in S1, S2.
  set (n1 := String.length t1) in *. set (n2 := String.length t2) in *.
  set (p1 := chars (JsString.slice0 5 t1)) in *.
  set (p2 := chars (JsString.slice0 5 t2)) in *.
  destruct (Nat.lt_total (List.length p1) (List.length p2)) as [Lt|[Eq|Gt]].
  - exfalso.
    assert (K : n1 = List.length p1) by lia.
    rewrite K in E at 1.
    apply (@prefix_lengths_clash (List.length p1) p1 p2 _ _
             ltac:(lia) eq_refl Lt ltac:(lia) E).
  - assert (R : List.length (List.rev p1) = List.length (List.rev p2))
      by now rewrite !length_rev.
    destruct (app_same_length _ _ _ _ R E) as [Ep Er].
    injection Er as Er.
    apply digits_delimited in Er.
    + apply (f_equal (@List.rev ascii)) in Ep, Er.
      rewrite !List.rev_involutive in Ep, Er.
      split.
      * apply of_nat_inj, chars_inj, Er.
      * apply chars_inj, Ep.
    + apply Forall_rev, of_nat_digits.
    + apply Forall_rev, of_nat_digits.
    + reflexivity.
    + reflexivity.
  - exfalso. symmetry in E.
    assert (K : n2 = List.length p2) by lia.
    rewrite K in E at 1.
    apply (@prefix_lengths_clash (List.length p2) p2 p1 _ _
             ltac:(lia) eq_refl Gt ltac:(lia) E).
Qed.

End TokenLine.

Lemma downloadingLine_suffix (version downloadURL githubToken : string) :
  LekkoPrev.downloadingLine version downloadURL githubToken =
  ("Downloading lekko version " ++ dq ++ version ++ dq ++ " from " ++ downloadURL)
  ++ tokenSuffix (String.length githubToken) (JsString.slice0 5 githubToken).
Proof.
  unfold LekkoPrev.downloadingLine, tokenSuffix, JsString.length.
  rewrite !append_assoc. reflexivity.
Qed.

(** The log of a run that resolved its download URL. *)
Lemma getLekkoPrev_log (w : World) (version githubToken : string) (h : History)
      (es : list Event) (downloadURL : string) :
  tc_find w h "lekko" version (os_arch w) = EmptyString ->
  LekkoPrev.getDownloadURL w version githubToken
    (h ++ [EvFind "lekko" version (os_arch w); EvInfo resolvingLine])%list
  = (es, Ret (inl downloadURL)) ->
  exists more,
    log (events (LekkoPrev.getLekko w version githubToken) h) =
    resolvingLine ::
    LekkoPrev.downloadingLine version downloadURL githubToken :: more.
Proof.
  intros Hfind Hurl.
  pose proof (getLekkoPrev_miss w version githubToken h Hfind) as G.
  cbv zeta in G.
  pose proof (getDownloadURLPrev_log w version githubToken
                (h ++ [EvFind "lekko" version (os_arch w); EvInfo resolvingLine]))
    as L.
  unfold events in L. rewrite Hurl in G, L. cbn [fst] in L.
  destruct G as [rest G]. exists (log rest).
  rewrite G. cbn [log]. rewrite log_app, L. reflexivity.
Qed.

(** C10, as the code has it.  In the two-argument variant, after a cache
    miss on which the download URL is resolved, the log holds the line that
    ends with the length of the github token and its first five characters;
    two such runs on the same host whose tokens differ in length or in
    their first five characters write different logs. *)
Theorem token_in_log (w : World) (version : string) (h : History)
        (t1 t2 : string) (es1 es2 : list Event) (u1 u2 : string) :
  let h1 := (h ++ [EvFind "lekko" version (os_arch w); EvInfo resolvingLine])%list in
  tc_find w h "lekko" version (os_arch w) = EmptyString ->
  LekkoPrev.getDownloadURL w version t1 h1 = (es1, Ret (inl u1)) ->
  LekkoPrev.getDownloadURL w version t2 h1 = (es2, Ret (inl u2)) ->
  In ("Downloading lekko version " ++ dq ++ version ++ dq ++ " from " ++ u1 ++
      " using token of length " ++ JsString.of_nat (String.length t1) ++ ": " ++
      JsString.slice0 5 t1)
     (log (events (LekkoPrev.getLekko w version t1) h)) /\
  (String.length t1 <> String.length t2 \/
   JsString.slice0 5 t1 <> JsString.slice0 5 t2 ->
   log (events (LekkoPrev.getLekko w version t1) h) <>
   log (events (LekkoPrev.getLekko w version t2) h)).
Proof.
  intros h1 Hfind H1 H2.
  destruct (getLekkoPrev_log w version t1 h Hfind H1) as [m1 L1].
  destruct (getLekkoPrev_log w version t2 h Hfind H2) as [m2 L2].
  rewrite L1, L2. split.
  - right. left. reflexivity.
  - intros Hdiff E.
    apply (f_equal (fun l => nth 1 l EmptyString)) in E. cbn [nth] in E.
    rewrite !downloadingLine_suffix in E.
    apply tokenSuffix_inj in E. destruct E as [El Es].
    destruct Hdiff as [N|N]; apply N; assumption.
Qed.

Lemma token_in_log_witness :
  let w := Example.linux (Example.inputs "latest" EmptyString "ghp_0123456789") in
  In ("Downloading lekko version " ++ dq ++ "latest" ++ dq ++ " from " ++
      url Example.linuxAsset ++ " using token of length 14: ghp_0")
     (log (events (LekkoPrev.getLekko w "latest" "ghp_0123456789") [])) /\
  log (events (LekkoPrev.getLekko w "latest" "ghp_0123456789") []) <>
  log (events (LekkoPrev.getLekko w "latest" "gho_0") []).
Proof.
  intro w.
  destruct (@token_in_log w "latest" [] "ghp_0123456789" "gho_0"
              [EvListReleases (clientOf w "ghp_0123456789") "lekkodev" "cli" 1]
              [EvListReleases (clientOf w "gho_0") "lekkodev" "cli" 1]
              (url Example.linuxAsset) (url Example.linuxAsset)
              eq_refl eq_refl eq_refl) as [I D].
  split; [exact I|]. apply D. left. discriminate.
Defined.

(** C10, as stated, fails: on a host whose architecture is not supported
    the cache is missed and the run stops before the download is reported.
    The log is the same single line for tokens of different length and
    different first characters, and it holds neither. *)
Lemma token_not_in_log_when_resolution_fails :
  let w := Example.windows32 (Example.inputs "latest" EmptyString "ghp_0123456789") in
  tc_find w [] "lekko" "latest" (os_arch w) = EmptyString /\
  log (events (LekkoPrev.getLekko w "latest" "ghp_0123456789") [])
  = [resolvingLine] /\
  log (events (LekkoPrev.getLekko w "latest" "gho_0") []) = [resolvingLine] /\
  JsString.includes resolvingLine
    (JsString.of_nat (JsString.length "ghp_0123456789")) = false /\
  JsString.includes resolvingLine (JsString.slice0 5 "ghp_0123456789") = false.
Proof. repeat split. Qed.

(* ================================================================== *)
(** ** The theorems at concrete hosts *)

Example resolveTokens_linux_x64 :
  resolveTokens "x64" "linux" = inl ("x86_64", "Linux").
Proof. reflexivity. Qed.

Example resolveTokens_darwin_arm64 :
  resolveTokens "arm64" "darwin" = inl ("arm64", "Darwin").
Proof. reflexivity. Qed.

Example resolveTokens_win32 :
  resolveTokens "x64" "win32" =
  inr {| message := "The " ++ dq ++ "win32" ++ dq ++
                    " platform is not supported with a Lekko release." |}.
Proof. reflexivity. Qed.

Example resolveTokens_ia32_win32 :
  resolveTokens "ia32" "win32" =
  inr {| message := "The " ++ dq ++ "ia32" ++ dq ++
                    " architecture is not supported with a Lekko release." |}.
Proof. reflexivity. Qed.

Lemma latest_release_lookup_witness :
  let input := Example.inputs "latest" EmptyString "ghp_token" in
  outcome (Lekko.getDownloadURL (Example.linux input) "latest" "ghp_token") []
  = Ret (inl (url Example.linuxAsset)) /\
  exists e,
    outcome (Lekko.getDownloadURL
               (Example.host "arm64" "linux" input EmptyString Example.denied
                             (Ret [Example.release]) EmptyString)
               "latest" "ghp_token") [] = Ret (inr e) /\
    JsString.includes (message e) "Linux" = true /\
    JsString.includes (message e) "arm64" = true.
Proof.
  intro input. split.
  - destruct (@latest_release_lookup (Example.linux input) "ghp_token" []
                "x86_64" "Linux" Example.release [] eq_refl eq_refl)
      as [_ [F _]].
    destruct (F [Example.darwinAsset] Example.linuxAsset [] eq_refl eq_refl)
      as [E _]; [|exact E].
    intros x [<-|[]]. discriminate.
  - destruct (@latest_release_lookup
                (Example.host "arm64" "linux" input EmptyString Example.denied
                              (Ret [Example.release]) EmptyString)
                "ghp_token" [] "arm64" "Linux" Example.release []
                eq_refl eq_refl) as [_ [_ N]].
    destruct N as (e & e' & E & _ & Ip & Ia & _).
    + intros x [<-|[<-|[]]]; discriminate.
    + exists e. repeat split; assumption.
Defined.

Lemma cache_hit_no_effects_witness :
  let w := Example.linuxCached (Example.inputs "0.2.15" "lekko_apikey" "ghp_token") in
  outcome (Lekko.getLekko w "0.2.15" "lekko_apikey" "ghp_token") []
  = Ret (inl "/opt/hostedtoolcache/lekko/0.2.15/x64") /\
  is_network (EvInfo "Found in cache @ /opt/hostedtoolcache/lekko/0.2.15/x64")
  = false.
Proof.
  intro w.
  destruct (@cache_hit_no_effects w "0.2.15" "lekko_apikey" "ghp_token" []
              "/opt/hostedtoolcache/lekko/0.2.15/x64" eq_refl)
    as [[E _] F]; [discriminate|].
  split; [exact E|].
  apply F. left. right. left. reflexivity.
Defined.

(* ================================================================== *)
(** * Further properties of the code *)

(** ** Release tags *)

(** X1. A release tag always starts with "v"; a version is its own tag
    exactly when it starts with "v"; a bare version and the same version
    written with the prefix have the same tag. *)
Theorem releaseTagForVersion_tags (x : string) :
  startsWithV (releaseTagForVersion x) /\
  (releaseTagForVersion x = x <-> startsWithV x) /\
  (~ startsWithV x ->
   releaseTagForVersion ("v" ++ x) = releaseTagForVersion x).
Proof.
  destruct (startsWithV_dec x) as [H|H].
  - rewrite (releaseTagForVersion_prefixed H).
    split; [exact H|]. split; [tauto | contradiction].
  - rewrite (releaseTagForVersion_bare H).
    assert (V : startsWithV ("v" ++ x)) by (now exists x).
    split; [exact V|]. split.
    + split; [intros E; rewrite <- E; exact V | contradiction].
    + intros _. apply releaseTagForVersion_prefixed, V.
Qed.

Lemma releaseTagForVersion_tags_witness :
  ~ startsWithV "0.2.15" /\
  releaseTagForVersion ("v" ++ "0.2.15") = releaseTagForVersion "0.2.15".
Proof.
  assert (N : ~ startsWithV "0.2.15") by (intros [r H]; discriminate H).
  split; [exact N|].
  exact (proj2 (proj2 (releaseTagForVersion_tags "0.2.15")) N).
Defined.

(* ================================================================== *)
(** ** [getDownloadURL] *)

Lemma scanAssets_some (wanted : string) (l : list Asset) (u : string) :
  scanAssets wanted l = Some u ->
  exists asset, In asset l /\ name asset = wanted /\ url asset = u.
Proof.
  induction l as [|b l IH]; simpl; [discriminate|].
  destruct (JsString.seq wanted (name b)) eqn:E.
  - intros [= <-]. apply seq_true in E. exists b. auto.
  - intros H. destruct (IH H) as (asset & I & N & U). exists asset. auto.
Qed.

(** The run of [getDownloadURL] on an explicit version. *)
Lemma getDownloadURL_tag (w : World) (version githubToken : string)
      (h : History) (a p : string) :
  resolveTokens (os_arch w) (os_platform w) = inl (a, p) ->
  version <> "latest" ->
  let query := EvReleaseByTag (clientOf w githubToken) "lekkodev" "cli"
                              (releaseTagForVersion version) in
  let result : list Event * Outcome (string + Error) :=
    ([query],
     match octokit_releaseByTag w h (clientOf w githubToken) "lekkodev" "cli"
                                (releaseTagForVersion version) with
     | Throw e => Throw e
     | Ret release =>
         match scanAssets (assetNameOf p a) (assets release) with
         | Some found => Ret (inl found)
         | None => Ret (inr (unableToFindVersion version p a))
         end
     end) in
  Lekko.getDownloadURL w version githubToken h = result /\
  LekkoPrev.getDownloadURL w version githubToken h = result.
Proof.
  intros Hres Hv. apply seq_false in Hv.
  unfold Lekko.getDownloadURL, LekkoPrev.getDownloadURL.
  rewrite Hres, Hv.
  cbn -[resolveTokens scanAssets assetNameOf requestAgentOf releaseTagForVersion].
  unfold bind, releaseByTag_call, call, clientOf.
  destruct (octokit_releaseByTag w h _ "lekkodev" "cli" _) as [release|e];
    cbn -[scanAssets assetNameOf requestAgentOf releaseTagForVersion];
    try (split; reflexivity).
  destruct (scanAssets (assetNameOf p a) (assets release)); split; reflexivity.
Qed.

(** X2. For an explicit version on a supported host [getDownloadURL] of
    either variant makes one call, the release by tag with the tag of the
    version.  When the release is returned, the URL of its first asset
    named lekko_<OSToken>_<ArchToken>.tar.gz is the result; when no asset
    has that name the result is an error whose message contains the version
    as given, the platform token and the architecture token. *)
Theorem explicit_version_lookup (w : World) (version githubToken : string)
        (h : History) (a p : string) (release : Release) :
  resolveTokens (os_arch w) (os_platform w) = inl (a, p) ->
  version <> "latest" ->
  octokit_releaseByTag w h (clientOf w githubToken) "lekkodev" "cli"
                       (releaseTagForVersion version) = Ret release ->
  let wanted := "lekko_" ++ p ++ "_" ++ a ++ ".tar.gz" in
  let query := EvReleaseByTag (clientOf w githubToken) "lekkodev" "cli"
                              (releaseTagForVersion version) in
  (events (Lekko.getDownloadURL w version githubToken) h = [query] /\
   events (LekkoPrev.getDownloadURL w version githubToken) h = [query]) /\
  (forall before asset after,
      assets release = (before ++ asset :: after)%list ->
      name asset = wanted ->
      (forall x, In x before -> name x <> wanted) ->
      outcome (Lekko.getDownloadURL w version githubToken) h
      = Ret (inl (url asset)) /\
      outcome (LekkoPrev.getDownloadURL w version githubToken) h
      = Ret (inl (url asset))) /\
  ((forall x, In x (assets release) -> name x <> wanted) ->
   exists e,
     outcome (Lekko.getDownloadURL w version githubToken) h = Ret (inr e) /\
     outcome (LekkoPrev.getDownloadURL w version githubToken) h = Ret (inr e) /\
     JsString.includes (message e) version = true /\
     JsString.includes (message e) p = true /\
     JsString.includes (message e) a = true).
Proof.
  intros Hres Hv Hrel wanted query.
  destruct (getDownloadURL_tag w githubToken h Hres Hv) as [E1 E2].
  rewrite Hrel in E1, E2. fold query in E1, E2.
  change (assetNameOf p a) with wanted in E1, E2.
  unfold events, outcome. rewrite E1, E2. cbn [fst snd].
  split; [split; reflexivity|]. split.
  - intros before asset after Ha Hn Hb.
    rewrite Ha, (@scanAssets_first wanted before asset after Hn Hb).
    split; reflexivity.
  - intros Hnone. rewrite (@scanAssets_none wanted _ Hnone).
    exists (unableToFindVersion version p a).
    destruct (unableToFindVersion_names version p a) as [Ip Ia].
    repeat split; try assumption.
    includes_between ("Unable to find Lekko version " ++ dq)
      (dq ++ " for platform " ++ dq ++ p ++ dq ++ " and architecture " ++ dq ++
       a ++ dq ++ ".").
Qed.

Lemma explicit_version_lookup_witness :
  let input := Example.inputs "0.2.15" EmptyString "ghp_token" in
  outcome (Lekko.getDownloadURL (Example.linux input) "0.2.15" "ghp_token") []
  = Ret (inl (url Example.linuxAsset)) /\
  exists e,
    outcome (LekkoPrev.getDownloadURL
               (Example.host "arm64" "linux" input EmptyString Example.denied
                             (Ret [Example.release]) EmptyString)
               "0.2.15" "ghp_token") [] = Ret (inr e) /\
    JsString.includes (message e) "0.2.15" = true.
Proof.
  intro input. split.
  - destruct (@explicit_version_lookup (Example.linux input) "0.2.15"
                "ghp_token" [] "x86_64" "Linux" Example.release eq_refl)
      as [_ [F _]]; [discriminate | reflexivity |].
    destruct (F [Example.darwinAsset] Example.linuxAsset [] eq_refl eq_refl)
      as [E _]; [|exact E].
    intros x [<-|[]]. discriminate.
  - destruct (@explicit_version_lookup
                (Example.host "arm64" "linux" input EmptyString Example.denied
                              (Ret [Example.release]) EmptyString)
                "0.2.15" "ghp_token" [] "arm64" "Linux" Example.release
                eq_refl) as [_ [_ N]]; [discriminate | reflexivity |].
    destruct N as (e & _ & E & Iv & _).
    + intros x [<-|[<-|[]]]; discriminate.
    + exists e. split; assumption.
Defined.

Lemma getDownloadURL_unsupported (w : World) (version githubToken : string)
      (h : History) (e : Error) :
  resolveTokens (os_arch w) (os_platform w) = inr e ->
  Lekko.getDownloadURL w version githubToken h = ([], Ret (inr e)) /\
  LekkoPrev.getDownloadURL w version githubToken h = ([], Ret (inr e)).
Proof.
  intros Hres. unfold Lekko.getDownloadURL, LekkoPrev.getDownloadURL.
  rewrite Hres. split; reflexivity.
Qed.

Lemma getDownloadURL_events (w : World) (version githubToken : string)
      (h : History) :
  let es := match resolveTokens (os_arch w) (os_platform w) with
            | inl _ => [registryQuery w version githubToken]
            | inr _ => []
            end in
  events (Lekko.getDownloadURL w version githubToken) h = es /\
  events (LekkoPrev.getDownloadURL w version githubToken) h = es.
Proof.
  unfold events, registryQuery.
  destruct (resolveTokens (os_arch w) (os_platform w)) as [[a p]|e] eqn:Hres.
  - destruct (JsString.seq version "latest") eqn:Hv.
    + apply seq_true in Hv. subst version.
      destruct (getDownloadURL_latest w githubToken h Hres) as [-> ->].
      split; reflexivity.
    + apply seq_false in Hv.
      destruct (getDownloadURL_tag w githubToken h Hres Hv) as [-> ->].
      split; reflexivity.
  - destruct (getDownloadURL_unsupported w version githubToken h Hres)
      as [-> ->].
    split; reflexivity.
Qed.

(** X3. Whatever the version, a URL returned by [getDownloadURL] of either
    variant is the URL of an asset that carries the exact name for the host,
    in the first release of the list for "latest" and in the release of the
    version's tag otherwise. *)
Theorem getDownloadURL_sound (w : World) (version githubToken : string)
        (h : History) (u : string) :
  outcome (Lekko.getDownloadURL w version githubToken) h = Ret (inl u) \/
  outcome (LekkoPrev.getDownloadURL w version githubToken) h = Ret (inl u) ->
  exists a p asset,
    resolveTokens (os_arch w) (os_platform w) = inl (a, p) /\
    name asset = "lekko_" ++ p ++ "_" ++ a ++ ".tar.gz" /\
    url asset = u /\
    (version = "latest" /\
     (exists first rest,
         octokit_listReleases w h (clientOf w githubToken) "lekkodev" "cli" 1
         = Ret (first :: rest) /\ In asset (assets first))
     \/
     version <> "latest" /\
     (exists release,
         octokit_releaseByTag w h (clientOf w githubToken) "lekkodev" "cli"
                              (releaseTagForVersion version) = Ret release /\
         In asset (assets release))).
Proof.
  unfold outcome.
  destruct (resolveTokens (os_arch w) (os_platform w)) as [[a p]|e] eqn:Hres.
  2:{ destruct (getDownloadURL_unsupported w version githubToken h Hres)
        as [-> ->]. intros [H|H]; discriminate H. }
  destruct (string_dec version "latest") as [->|Hv].
  - destruct (getDownloadURL_latest w githubToken h Hres) as [-> ->].
    cbn [snd].
    destruct (octokit_listReleases w h _ "lekkodev" "cli" 1)
      as [[|first rest]|e]; try (intros [H|H]; discriminate H).
    destruct (scanAssets (assetNameOf p a) (assets first)) as [found|] eqn:S;
      try (intros [H|H]; discriminate H).
    intros H. assert (found = u) by (destruct H as [H|H]; now injection H).
    subst found. destruct (scanAssets_some _ _ S) as (asset & I & N & U).
    exists a, p, asset. repeat split; trivial.
    left. split; [reflexivity|]. exists first, rest. split; trivial.
  - destruct (getDownloadURL_tag w githubToken h Hres Hv) as [-> ->].
    cbn [snd].
    destruct (octokit_releaseByTag w h _ "lekkodev" "cli" _)
      as [release|e] eqn:R; try (intros [H|H]; discriminate H).
    destruct (scanAssets (assetNameOf p a) (assets release)) as [found|] eqn:S;
      try (intros [H|H]; discriminate H).
    intros H. assert (found = u) by (destruct H as [H|H]; now injection H).
    subst found. destruct (scanAssets_some _ _ S) as (asset & I & N & U).
    exists a, p, asset. repeat split; trivial.
    right. split; [exact Hv|]. exists release. split; trivial.
Qed.

Lemma getDownloadURL_sound_witness :
  let w := Example.linux (Example.inputs "0.2.15" EmptyString "ghp_token") in
  exists asset,
    name asset = "lekko_Linux_x86_64.tar.gz" /\
    url asset = url Example.linuxAsset /\ In asset (assets Example.release).
Proof.
  intro w.
  destruct (@getDownloadURL_sound w "0.2.15" "ghp_token" []
              (url Example.linuxAsset) (or_introl eq_refl))
    as (a & p & asset & Hres & N & U & [[V _]|[_ (release & R & I)]]).
  - discriminate V.
  - injection Hres as <- <-. injection R as <-.
    exists asset. repeat split; assumption.
Defined.

(** X4. The two variants of [getDownloadURL] make the same call and agree
    on every URL and on every exception; on an explicit version they are the
    same function.  (They differ in the wording of the error when "latest"
    has no matching asset.) *)
Theorem getDownloadURL_variants_agree (w : World) (version githubToken : string)
        (h : History) :
  events (Lekko.getDownloadURL w version githubToken) h
  = events (LekkoPrev.getDownloadURL w version githubToken) h /\
  (forall u,
      outcome (Lekko.getDownloadURL w version githubToken) h = Ret (inl u) <->
      outcome (LekkoPrev.getDownloadURL w version githubToken) h = Ret (inl u)) /\
  (forall e,
      outcome (Lekko.getDownloadURL w version githubToken) h = Throw e <->
      outcome (LekkoPrev.getDownloadURL w version githubToken) h = Throw e) /\
  (version <> "latest" ->
   Lekko.getDownloadURL w version githubToken h
   = LekkoPrev.getDownloadURL w version githubToken h).
Proof.
  split.
  { destruct (getDownloadURL_events w version githubToken h) as [-> ->].
    reflexivity. }
  unfold outcome.
  destruct (resolveTokens (os_arch w) (os_platform w)) as [[a p]|e] eqn:Hres.
  2:{ destruct (getDownloadURL_unsupported w version githubToken h Hres)
        as [-> ->]. repeat split; trivial. }
  destruct (string_dec version "latest") as [->|Hv].
  - destruct (getDownloadURL_latest w githubToken h Hres) as [-> ->].
    cbn [snd].
    split; [|split; [|intros N; now elim N]].
    + intros u.
      destruct (octokit_listReleases w h _ "lekkodev" "cli" 1)
        as [[|first rest]|e]; try tauto.
      destruct (scanAssets (assetNameOf p a) (assets first)); [tauto|].
      split; discriminate.
    + intros e.
      destruct (octokit_listReleases w h _ "lekkodev" "cli" 1)
        as [[|first rest]|e']; try tauto.
      destruct (scanAssets (assetNameOf p a) (assets first)); [tauto|].
      split; discriminate.
  - destruct (getDownloadURL_tag w githubToken h Hres Hv) as [-> ->].
    repeat split; trivial.
Qed.

Lemma getDownloadURL_variants_agree_witness :
  let w := Example.linux (Example.inputs "0.2.15" EmptyString "ghp_token") in
  Lekko.getDownloadURL w "0.2.15" "ghp_token" []
  = LekkoPrev.getDownloadURL w "0.2.15" "ghp_token" [].
Proof.
  intro w.
  apply (proj2 (proj2 (proj2
           (getDownloadURL_variants_agree w "0.2.15" "ghp_token" [])))).
  discriminate.
Defined.

(** X5. A bare version and the same version written with the "v" prefix
    lead [getDownloadURL] to the same call, and to the same URL whenever
    either finds one. *)
Theorem version_spelling (w : World) (x githubToken : string) (h : History) :
  ~ startsWithV x -> x <> "latest" ->
  (events (Lekko.getDownloadURL w x githubToken) h
   = events (Lekko.getDownloadURL w ("v" ++ x) githubToken) h /\
   forall u,
     outcome (Lekko.getDownloadURL w x githubToken) h = Ret (inl u) <->
     outcome (Lekko.getDownloadURL w ("v" ++ x) githubToken) h = Ret (inl u)) /\
  (events (LekkoPrev.getDownloadURL w x githubToken) h
   = events (LekkoPrev.getDownloadURL w ("v" ++ x) githubToken) h /\
   forall u,
     outcome (LekkoPrev.getDownloadURL w x githubToken) h = Ret (inl u) <->
     outcome (LekkoPrev.getDownloadURL w ("v" ++ x) githubToken) h
     = Ret (inl u)).
Proof.
  intros Hbare Hx.
  assert (Hvx : "v" ++ x <> "latest") by discriminate.
  assert (T : releaseTagForVersion ("v" ++ x) = releaseTagForVersion x).
  { rewrite (releaseTagForVersion_bare Hbare).
    apply releaseTagForVersion_prefixed. now exists x. }
  unfold events, outcome.
  destruct (resolveTokens (os_arch w) (os_platform w)) as [[a p]|e] eqn:Hres.
  - destruct (getDownloadURL_tag w githubToken h Hres Hx) as [-> ->].
    destruct (getDownloadURL_tag w githubToken h Hres Hvx) as [-> ->].
    cbv zeta. rewrite T. cbn [fst snd].
    destruct (octokit_releaseByTag w h _ "lekkodev" "cli" _) as [release|e];
      [|repeat split; trivial].
    destruct (scanAssets (assetNameOf p a) (assets release));
      repeat split; trivial; discriminate.
  - destruct (getDownloadURL_unsupported w x githubToken h Hres) as [-> ->].
    destruct (getDownloadURL_unsupported w ("v" ++ x) githubToken h Hres)
      as [-> ->].
    repeat split; trivial.
Qed.

Lemma version_spelling_witness :
  let w := Example.linux (Example.inputs "0.2.15" EmptyString "ghp_token") in
  outcome (Lekko.getDownloadURL w "0.2.15" "ghp_token") []
  = Ret (inl (url Example.linuxAsset)) /\
  outcome (Lekko.getDownloadURL w "v0.2.15" "ghp_token") []
  = Ret (inl (url Example.linuxAsset)).
Proof.
  intro w.
  assert (N : ~ startsWithV "0.2.15") by (intros [r H]; discriminate H).
  assert (L : "0.2.15" <> "latest") by discriminate.
  destruct (@version_spelling w "0.2.15" "ghp_token" [] N L) as [[_ I] _].
  assert (E : outcome (Lekko.getDownloadURL w "0.2.15" "ghp_token") []
              = Ret (inl (url Example.linuxAsset))) by reflexivity.
  split; [exact E | exact (proj1 (I _) E)].
Defined.

(** X6. [getDownloadURL] of either variant makes at most one call, and it
    is a registry query on lekkodev/cli made by a client that authenticates
    with the token it was given and goes through the proxy agent exactly
    when [http_proxy] is set and not empty.  It writes no log and touches
    neither the network otherwise nor the cache. *)
Theorem getDownloadURL_single_query (w : World) (version githubToken : string)
        (h : History) :
  (List.length (events (Lekko.getDownloadURL w version githubToken) h) <= 1 /\
   Forall (registryQueryBy w githubToken)
          (events (Lekko.getDownloadURL w version githubToken) h)) /\
  (List.length (events (LekkoPrev.getDownloadURL w version githubToken) h) <= 1 /\
   Forall (registryQueryBy w githubToken)
          (events (LekkoPrev.getDownloadURL w version githubToken) h)) /\
  (forall proxy,
      agent (clientOf w githubToken) = Some proxy <->
      env_http_proxy w = Some proxy /\ proxy <> EmptyString).
Proof.
  destruct (getDownloadURL_events w version githubToken h) as [-> ->].
  assert (Q : registryQueryBy w githubToken
                (registryQuery w version githubToken)).
  { unfold registryQuery. destruct (JsString.seq version "latest");
      cbn [registryQueryBy]; auto. }
  assert (G : forall es,
             es = match resolveTokens (os_arch w) (os_platform w) with
                  | inl _ => [registryQuery w version githubToken]
                  | inr _ => []
                  end ->
             List.length es <= 1 /\ Forall (registryQueryBy w githubToken) es).
  { intros es ->. destruct (resolveTokens (os_arch w) (os_platform w)).
    - split; [cbn; lia | repeat constructor; exact Q].
    - split; [cbn; lia | constructor]. }
  split; [apply G; reflexivity|]. split; [apply G; reflexivity|].
  intros proxy. unfold clientOf, requestAgentOf. cbn [agent].
  destruct (env_http_proxy w) as [q|].
  - destruct (JsString.seq q EmptyString) eqn:E.
    + apply seq_true in E. subst q. split; [discriminate|].
      intros [[= <-] N]. now elim N.
    + apply seq_false in E. split.
      * intros [= <-]. auto.
      * intros [[= <-] _]. reflexivity.
  - split; [discriminate | intros [H _]; discriminate H].
Qed.

(** X7. A registry query that throws is not retried and not turned into a
    returned error: on a supported host [getDownloadURL] of either variant
    throws the same value, the query being its only call. *)
Theorem registry_failure_propagates (w : World) (version githubToken : string)
        (h : History) (a p : string) (e : Thrown) :
  resolveTokens (os_arch w) (os_platform w) = inl (a, p) ->
  (version = "latest" /\
   octokit_listReleases w h (clientOf w githubToken) "lekkodev" "cli" 1
   = Throw e
   \/
   version <> "latest" /\
   octokit_releaseByTag w h (clientOf w githubToken) "lekkodev" "cli"
                        (releaseTagForVersion version) = Throw e) ->
  Lekko.getDownloadURL w version githubToken h
  = ([registryQuery w version githubToken], Throw e) /\
  LekkoPrev.getDownloadURL w version githubToken h
  = ([registryQuery w version githubToken], Throw e).
Proof.
  intros Hres [[-> H]|[Hv H]].
  - destruct (getDownloadURL_latest w githubToken h Hres) as [-> ->].
    rewrite H. split; reflexivity.
  - destruct (getDownloadURL_tag w githubToken h Hres Hv) as [-> ->].
    rewrite H. unfold registryQuery.
    apply seq_false in Hv. rewrite Hv. split; reflexivity.
Qed.

Lemma registry_failure_propagates_witness :
  let w := Example.host "x64" "linux"
             (Example.inputs "0.2.15" EmptyString "ghp_token") EmptyString
             Example.denied (Throw (ThrownError "Bad credentials"))
             EmptyString in
  outcome (Lekko.getDownloadURL w "0.2.15" "ghp_token") []
  = Throw (ThrownError "Bad credentials") /\
  outcome (LekkoPrev.getDownloadURL w "latest" "ghp_token") []
  = Throw (ThrownError "Bad credentials").
Proof.
  intro w. split.
  - destruct (@registry_failure_propagates w "0.2.15" "ghp_token" []
                "x86_64" "Linux" (ThrownError "Bad credentials") eq_refl)
      as [E _].
    + right. split; [discriminate | reflexivity].
    + unfold outcome. now rewrite E.
  - destruct (@registry_failure_propagates w "latest" "ghp_token" []
                "x86_64" "Linux" (ThrownError "Bad credentials") eq_refl)
      as [_ E].
    + left. split; reflexivity.
    + unfold outcome. now rewrite E.
Defined.

(* ================================================================== *)
(** ** [getGithubToken] *)

(** X8. [getGithubToken] returns a token exactly when the response is a
    success whose body parses and holds a non-empty token, which is then the
    result: it never returns an empty token.  It throws exactly when the
    request throws or the body of a success does not parse; the body of a
    response that is no success is not read. *)
Theorem getGithubToken_result (w : World) (apikey : string) (h : History) :
  let answer :=
    fetch w h Lekko.tokenEndpoint "POST"
          [("apikey", apikey); ("Content-Type", "application/json")] "{}" in
  (forall t,
      outcome (Lekko.getGithubToken w apikey) h = Ret (inl t) <->
      exists resp data,
        answer = Ret resp /\ ok resp = true /\ json resp = Ret data /\
        token data = Some t /\ t <> EmptyString) /\
  (forall e,
      outcome (Lekko.getGithubToken w apikey) h = Throw e <->
      answer = Throw e \/
      exists resp, answer = Ret resp /\ ok resp = true /\ json resp = Throw e).
Proof.
  intro answer. unfold outcome. rewrite getGithubToken_run. cbn [snd].
  fold answer. split.
  - intros t. split.
    + destruct answer as [resp|e]; [|discriminate].
      destruct (ok resp) eqn:Hok; [|discriminate].
      destruct (json resp) as [data|e] eqn:Hj; [|discriminate].
      destruct (token data) as [t'|] eqn:Ht; [|discriminate].
      destruct t' as [|c t']; [discriminate|].
      cbn [String.length Nat.eqb]. intros [= <-].
      exists resp, data. repeat split; trivial. discriminate.
    + intros (resp & data & -> & -> & -> & -> & N).
      destruct t as [|c t]; [now elim N | reflexivity].
  - intros e. split.
    + destruct answer as [resp|e']; [|intros [= ->]; now left].
      destruct (ok resp) eqn:Hok; [|discriminate].
      destruct (json resp) as [data|e'] eqn:Hj.
      * destruct (token data) as [t'|]; [|discriminate].
        destruct (Nat.eqb (String.length t') 0); discriminate.
      * intros [= ->]. right. exists resp. auto.
    + intros [->|(resp & -> & -> & ->)]; reflexivity.
Qed.

Lemma getGithubToken_result_witness :
  let w := Example.linux (Example.inputs "latest" "lekko_apikey" EmptyString) in
  outcome (Lekko.getGithubToken w "lekko_apikey") [] = Ret (inl "ghs_exchanged").
Proof.
  intro w.
  apply (proj1 (getGithubToken_result w "lekko_apikey" [])).
  eexists. eexists. repeat split; try reflexivity. discriminate.
Defined.

(* ================================================================== *)
(** ** [getLekko] *)



(** X10. Every lookup in the tool cache and every write to it that a run of
    [getLekko] makes, in either variant, is under the key "lekko", the
    version exactly as it was given (not its release tag) and the host
    architecture. *)
Theorem cache_key (w : World) (version apikey githubToken : string) :
  emits (cacheKeyed w version) (Lekko.getLekko w version apikey githubToken) /\
  emits (cacheKeyed w version) (LekkoPrev.getLekko w version githubToken).
Proof.
  split.
  - unfold Lekko.getLekko, Lekko.fetchWith, Lekko.getGithubToken,
      Lekko.getDownloadURL, firstAssets. run_unfold.
    emits_walk; cbn [cacheKeyed]; auto.
  - unfold LekkoPrev.getLekko, LekkoPrev.getDownloadURL, firstAssets.
    run_unfold. emits_walk; cbn [cacheKeyed]; auto.
Qed.

(** Splits a run on every answer of the world it depends on, each once it
    is in sight: a scrutinee that still holds a match is left for later. *)
Ltac run_cases :=
  repeat first
    [ run_step
    | match goal with
      | |- context [match ?x with _ => _ end] =>
          lazymatch x with
          | context [match _ with _ => _ end] => fail
          | _ => destruct x eqn:?
          end
      end ].

(** X11. The stages of a fetch come in order and at most once each, in
    either variant: the registry is queried before anything is downloaded,
    the archive is extracted only after its download returned, and the cache
    is written only after the extraction returned. *)
Theorem fetch_stages (w : World) (version apikey githubToken : string)
        (h : History) :
  staged 0 (events (Lekko.getLekko w version apikey githubToken) h) = true /\
  staged 0 (events (LekkoPrev.getLekko w version githubToken) h) = true.
Proof.
  split.
  - unfold Lekko.getLekko, Lekko.fetchWith, Lekko.getGithubToken,
      Lekko.getDownloadURL, firstAssets. run_unfold.
    run_cases; reflexivity.
  - unfold LekkoPrev.getLekko, LekkoPrev.getDownloadURL, firstAssets.
    run_unfold. run_cases; reflexivity.
Qed.

Lemma negb_seq_empty (s : string) :
  (negb (JsString.seq s EmptyString) = true -> s <> EmptyString) /\
  (negb (JsString.seq s EmptyString) = false -> s = EmptyString).
Proof.
  destruct (JsString.seq s EmptyString) eqn:E; cbn [negb].
  - split; [discriminate | intros _; now apply seq_true].
  - split; [intros _; now apply seq_false | discriminate].
Qed.

(** X12. What [getLekko] of [src/lekko.ts] returns is a path of the tool
    cache.  A directory it returns is either the non-empty answer of the
    cache lookup, or, after a miss, the answer of [tc.cacheDir] for the
    directory into which the archive was extracted, the archive being the
    download, with the bearer header of the credential in use, of the URL
    that [getDownloadURL] returned for that credential. *)
Theorem getLekko_returns_cache_path (w : World)
        (version apikey githubToken : string) (h : History) (d : string) :
  outcome (Lekko.getLekko w version apikey githubToken) h = Ret (inl d) ->
  d <> EmptyString /\ d = tc_find w h "lekko" version (os_arch w)
  \/
  tc_find w h "lekko" version (os_arch w) = EmptyString /\
  exists tok u downloadPath extractPath h1 h2 h3 h4,
    outcome (Lekko.getDownloadURL w version tok) h1 = Ret (inl u) /\
    tc_downloadTool w h2 u None None (Some (downloadHeaders tok))
    = Ret downloadPath /\
    tc_extractTar w h3 downloadPath = Ret extractPath /\
    tc_cacheDir w h4 extractPath "lekko" version (os_arch w) = Ret d.
Proof.
  unfold Lekko.getLekko, Lekko.fetchWith, Lekko.getGithubToken. run_unfold.
  fold (downloadHeaders githubToken).
  run_cases; intros H; try discriminate H; injection H as <-;
    repeat match goal with
           | E : negb _ = _ |- _ => apply negb_seq_empty in E
           end;
    first [ left; split; [assumption | reflexivity]
          | right; split; [assumption|]; do 8 eexists;
            repeat split; eassumption ].
Qed.

Lemma getLekko_returns_cache_path_witness :
  let w := Example.linux (Example.inputs "latest" EmptyString "ghp_token") in
  outcome (Lekko.getLekko w "latest" EmptyString "ghp_token") []
  = Ret (inl "/opt/hostedtoolcache/lekko/latest/x64") /\
  tc_find w [] "lekko" "latest" (os_arch w) = EmptyString /\
  exists tok u downloadPath extractPath h1 h2 h3 h4,
    outcome (Lekko.getDownloadURL w "latest" tok) h1 = Ret (inl u) /\
    tc_downloadTool w h2 u None None (Some (downloadHeaders tok))
    = Ret downloadPath /\
    tc_extractTar w h3 downloadPath = Ret extractPath /\
    tc_cacheDir w h4 extractPath "lekko" "latest" (os_arch w)
    = Ret "/opt/hostedtoolcache/lekko/latest/x64".
Proof.
  intro w.
  assert (R : outcome (Lekko.getLekko w "latest" EmptyString "ghp_token") []
              = Ret (inl "/opt/hostedtoolcache/lekko/latest/x64"))
    by reflexivity.
  split; [exact R|].
  destruct (@getLekko_returns_cache_path w "latest" EmptyString "ghp_token" []
              "/opt/hostedtoolcache/lekko/latest/x64" R)
    as [[_ E]|[M X]]; [discriminate E|].
  split; [exact M | exact X].
Defined.

(** X13. The same for the two-argument variant, which passes the token to
    the download as its authorization argument, without headers, and caches
    the directory "lekko" inside the extracted one. *)
Theorem getLekkoPrev_returns_cache_path (w : World)
        (version githubToken : string) (h : History) (d : string) :
  outcome (LekkoPrev.getLekko w version githubToken) h = Ret (inl d) ->
  d <> EmptyString /\ d = tc_find w h "lekko" version (os_arch w)
  \/
  tc_find w h "lekko" version (os_arch w) = EmptyString /\
  exists u downloadPath extractPath h1 h2 h3 h4,
    outcome (LekkoPrev.getDownloadURL w version githubToken) h1 = Ret (inl u) /\
    tc_downloadTool w h2 u None (Some githubToken) None = Ret downloadPath /\
    tc_extractTar w h3 downloadPath = Ret extractPath /\
    tc_cacheDir w h4 (path_join w extractPath "lekko") "lekko" version
                (os_arch w) = Ret d.
Proof.
  unfold LekkoPrev.getLekko. run_unfold.
  run_cases; intros H; try discriminate H; injection H as <-;
    repeat match goal with
           | E : negb _ = _ |- _ => apply negb_seq_empty in E
           end;
    first [ left; split; [assumption | reflexivity]
          | right; split; [assumption|]; do 7 eexists;
            repeat split; eassumption ].
Qed.

Lemma getLekkoPrev_returns_cache_path_witness :
  let w := Example.linux (Example.inputs "0.2.15" EmptyString "ghp_token") in
  exists extractPath h4,
    tc_cacheDir w h4 (path_join w extractPath "lekko") "lekko" "0.2.15"
                (os_arch w) = Ret "/opt/hostedtoolcache/lekko/0.2.15/x64".
Proof.
  intro w.
  destruct (@getLekkoPrev_returns_cache_path w "0.2.15" "ghp_token" []
              "/opt/hostedtoolcache/lekko/0.2.15/x64" eq_refl)
    as [[_ E]|[_ (u & dp & ep & h1 & h2 & h3 & h4 & _ & _ & _ & C)]].
  - discriminate E.
  - exists ep, h4. exact C.
Defined.

(* ================================================================== *)
(** ** [runSetup] and [run], further *)

Section RunFurther.
Variable w : World.
Variable getLekko : string -> string -> M (string + Error).

(** [runSetup] once both inputs are set, in terms of the answers it gets. *)
Lemma runSetup_run (h : History) :
  let version := core_getInput w "version" in
  let githubToken := core_getInput w "github_token" in
  let setting := EvInfo ("Setting up Lekko version " ++ dq ++ version ++ dq) in
  version <> EmptyString -> githubToken <> EmptyString ->
  Run.runSetup w getLekko h =
  match getLekko version githubToken (h ++ [setting])%list with
  | (fetched, Throw e) => (setting :: fetched, Throw e)
  | (fetched, Ret (inr e)) => (setting :: fetched, Ret (Some e))
  | (fetched, Ret (inl d)) =>
      let adding :=
        EvInfo ("Adding lekko binary to PATH. This is the install directory: "
                ++ d) in
      let dir := if String.eqb (os_platform w) "win32" then d
                 else path_join w d "bin" in
      let before := (setting :: fetched ++ [adding; EvAddPath dir])%list in
      match io_which w (h ++ before) "lekko" true with
      | Throw e => ((before ++ [EvWhich "lekko" true])%list, Throw e)
      | Ret binaryPath =>
          if JsString.seq binaryPath EmptyString then
            ((before ++ [EvWhich "lekko" true])%list,
             Ret (Some {| message := "lekko was not found on PATH" |}))
          else
            let done := EvInfo ("Successfully setup lekko version " ++ version) in
            let exec := EvExecSync (binaryPath ++ " --version") in
            let h' := (h ++ before ++ [EvWhich "lekko" true; done])%list in
            match cp_execSync w h' (binaryPath ++ " --version") with
            | Throw e => ((before ++ [EvWhich "lekko" true; done; exec])%list,
                          Throw e)
            | Ret out => ((before ++ [EvWhich "lekko" true; done; exec;
                                      EvInfo out])%list, Ret None)
            end
      end
  end.
Proof.
  intros version githubToken setting Hv Ht.
  apply seq_false in Hv, Ht.
  rewrite run_eq. unfold Run.runSetup.
  fold version githubToken. rewrite Hv, Ht.
  run_unfold. fold setting.
  rewrite events_bind, outcome_bind, events_call, outcome_call.
  cbn beta iota. rewrite events_bind, outcome_bind.
  destruct (getLekko version githubToken (h ++ [setting])%list)
    as [fetched r] eqn:Hget.
  assert (Eg : events (getLekko version githubToken) (h ++ [setting]) = fetched)
    by (unfold events; now rewrite Hget).
  assert (Og : outcome (getLekko version githubToken) (h ++ [setting]) = r)
    by (unfold outcome; now rewrite Hget).
  rewrite Eg, Og.
  destruct r as [[d|e]|e].
  2:{ run_simpl. now rewrite app_nil_r. }
  2:{ cbn [List.app]. now rewrite app_nil_r. }
  cbn beta iota.
  unfold JsString.seq at 1 3.
  set (dir := if String.eqb (os_platform w) "win32" then d
              else path_join w d "bin").
  assert (P : forall h0,
     events (if String.eqb (os_platform w) "win32"
             then call (EvAddPath d) (fun _ => Ret tt)
             else call (EvAddPath (path_join w d "bin")) (fun _ => Ret tt)) h0
     = [EvAddPath dir] /\
     outcome (if String.eqb (os_platform w) "win32"
              then call (EvAddPath d) (fun _ => Ret tt)
              else call (EvAddPath (path_join w d "bin")) (fun _ => Ret tt)) h0
     = Ret tt).
  { intros h0. unfold dir.
    destruct (String.eqb (os_platform w) "win32"); split; reflexivity. }
  run_simpl.
  rewrite !(proj1 (P _)), !(proj2 (P _)). run_simpl.
  cbv zeta. cbn [List.app]. rewrite <- ?app_assoc. cbn [List.app].
  destruct (io_which w _ "lekko" true) as [binaryPath|e]; [|reflexivity].
  destruct (JsString.seq binaryPath EmptyString); run_simpl; [reflexivity|].
  destruct (cp_execSync w _ _) as [out|e]; run_simpl; reflexivity.
Qed.

Lemma run_of_runSetup (h : History) :
  Run.run w getLekko h =
  match Run.runSetup w getLekko h with
  | (es, Ret None) => (es, Ret tt)
  | (es, Ret (Some e)) => ((es ++ [EvSetFailed (message e)])%list, Ret tt)
  | (es, Throw (ThrownError m)) => ((es ++ [EvSetFailed m])%list, Ret tt)
  | (es, Throw ThrownOther) =>
      ((es ++ [EvSetFailed "Internal error"])%list, Ret tt)
  end.
Proof.
  rewrite run_eq, (run_eq (Run.runSetup w getLekko) h). unfold Run.run.
  rewrite events_try_catch, outcome_try_catch, events_bind, outcome_bind.
  destruct (outcome (Run.runSetup w getLekko) h) as [[e|]|[m|]];
    run_simpl; rewrite ?app_nil_r; reflexivity.
Qed.

End RunFurther.

(** X14. Without a version nothing is attempted, whatever the other inputs
    are: [runSetup] returns before it reads the token, [run] calls neither
    the fetch nor anything else, and its one event is the failure
    "a version was not provided". *)
Theorem missing_version (w : World)
        (getLekko : string -> string -> M (string + Error)) (h : History) :
  core_getInput w "version" = EmptyString ->
  Run.runSetup w getLekko h
  = ([], Ret (Some {| message := "a version was not provided" |})) /\
  Run.run w getLekko h
  = ([EvSetFailed "a version was not provided"], Ret tt).
Proof.
  intros Hv.
  assert (R : Run.runSetup w getLekko h
              = ([], Ret (Some {| message := "a version was not provided" |})))
    by (unfold Run.runSetup; rewrite Hv; reflexivity).
  split; [exact R|]. rewrite run_of_runSetup, R. reflexivity.
Qed.

Lemma missing_version_witness :
  let w := Example.linux (Example.inputs EmptyString "lekko_apikey" "ghp_token") in
  action w [] = ([EvSetFailed "a version was not provided"], Ret tt).
Proof.
  intro w.
  exact (proj2 (missing_version w (LekkoPrev.getLekko w) [] eq_refl)).
Defined.

(** X15. An error returned by the fetch ends the setup: once both inputs
    are set and [getLekko] returns an error, [run] marks the run failed with
    that error's message and the search path is left alone: no
    [core.addPath], no [io.which], no [cp.execSync]. *)
Theorem fetch_error_ends_setup (w : World)
        (getLekko : string -> string -> M (string + Error)) (h : History)
        (fetched : list Event) (e : Error) :
  let version := core_getInput w "version" in
  let githubToken := core_getInput w "github_token" in
  let setting := EvInfo ("Setting up Lekko version " ++ dq ++ version ++ dq) in
  version <> EmptyString -> githubToken <> EmptyString ->
  getLekko version githubToken (h ++ [setting])%list = (fetched, Ret (inr e)) ->
  Run.run w getLekko h
  = ((setting :: fetched ++ [EvSetFailed (message e)])%list, Ret tt).
Proof.
  intros version githubToken setting Hv Ht Hget.
  rewrite run_of_runSetup, (@runSetup_run w getLekko h Hv Ht).
  fold version githubToken setting. rewrite Hget. reflexivity.
Qed.

Lemma fetch_error_ends_setup_witness :
  let w := Example.windows32 (Example.inputs "0.2.15" EmptyString "ghp_token") in
  action w [] =
  ([EvInfo ("Setting up Lekko version " ++ dq ++ "0.2.15" ++ dq);
    EvFind "lekko" "0.2.15" "ia32"; EvInfo resolvingLine;
    EvSetFailed ("The " ++ dq ++ "ia32" ++ dq ++
                 " architecture is not supported with a Lekko release.")],
   Ret tt).
Proof.
  intro w.
  refine (@fetch_error_ends_setup w (LekkoPrev.getLekko w) []
            [EvFind "lekko" "0.2.15" "ia32"; EvInfo resolvingLine]
            _ _ _ eq_refl); discriminate.
Defined.

(** X16. The version probe is part of the setup.  When the binary is found
    on the path and [cp.execSync] of "<binary> --version" throws, [runSetup]
    throws, so that [run] marks the run failed although the install is in
    place; when the probe returns, its output is logged last and [runSetup]
    returns null. *)
Theorem version_probe (w : World)
        (getLekko : string -> string -> M (string + Error)) (h : History)
        (fetched : list Event) (d binaryPath : string) :
  let version := core_getInput w "version" in
  let githubToken := core_getInput w "github_token" in
  let setting := EvInfo ("Setting up Lekko version " ++ dq ++ version ++ dq) in
  let adding :=
    EvInfo ("Adding lekko binary to PATH. This is the install directory: " ++ d) in
  let dir := if String.eqb (os_platform w) "win32" then d
             else path_join w d "bin" in
  let before := (setting :: fetched ++ [adding; EvAddPath dir])%list in
  let done := EvInfo ("Successfully setup lekko version " ++ version) in
  let probe := EvExecSync (binaryPath ++ " --version") in
  let answer := cp_execSync w (h ++ before ++ [EvWhich "lekko" true; done])
                            (binaryPath ++ " --version") in
  version <> EmptyString -> githubToken <> EmptyString ->
  getLekko version githubToken (h ++ [setting])%list = (fetched, Ret (inl d)) ->
  io_which w (h ++ before) "lekko" true = Ret binaryPath ->
  binaryPath <> EmptyString ->
  (forall e, answer = Throw e ->
     Run.runSetup w getLekko h
     = ((before ++ [EvWhich "lekko" true; done; probe])%list, Throw e)) /\
  (forall out, answer = Ret out ->
     Run.runSetup w getLekko h
     = ((before ++ [EvWhich "lekko" true; done; probe; EvInfo out])%list,
        Ret None) /\
     Run.run w getLekko h
     = ((before ++ [EvWhich "lekko" true; done; probe; EvInfo out])%list,
        Ret tt)).
Proof.
  intros version githubToken setting adding dir before done probe answer
         Hv Ht Hget Hw Hb.
  pose proof (@runSetup_run w getLekko h Hv Ht) as R.
  fold version githubToken setting in R. rewrite Hget in R. cbv zeta in R.
  fold adding dir before in R. rewrite Hw in R.
  apply seq_false in Hb. rewrite Hb in R. fold done probe answer in R.
  split.
  - intros e He. rewrite R, He. reflexivity.
  - intros out Ho. rewrite run_of_runSetup, R, Ho. split; reflexivity.
Qed.

Lemma version_probe_witness :
  let w := Example.linux (Example.inputs "latest" EmptyString "ghp_token") in
  outcome (Run.runSetup w (LekkoPrev.getLekko w)) [] = Ret None /\
  last (events (action w) []) (EvInfo EmptyString)
  = EvInfo "lekko version v0.2.15".
Proof.
  intro w.
  destruct (@version_probe w (LekkoPrev.getLekko w) []
              (events (LekkoPrev.getLekko w "latest" "ghp_token")
                 [EvInfo ("Setting up Lekko version " ++ dq ++ "latest" ++ dq)])
              "/opt/hostedtoolcache/lekko/latest/x64"
              "/opt/hostedtoolcache/lekko/latest/x64/bin/lekko")
    as [_ S]; try discriminate; try reflexivity.
  destruct (S "lekko version v0.2.15" eq_refl) as [R A].
  split.
  - unfold outcome. rewrite R. reflexivity.
  - unfold events, action. rewrite A. reflexivity.
Defined.

Lemma getDownloadURL_single_query_witness :
  let w := Example.proxied (Example.inputs "latest" EmptyString "ghp_token") in
  agent (clientOf w "ghp_token") = Some "http://proxy.internal:3128".
Proof.
  intro w.
  apply (proj2 (proj2 (getDownloadURL_single_query w "latest" "ghp_token" []))).
  split; [reflexivity | discriminate].
Defined.

Lemma filter_none (A : Type) (f : A -> bool) (l : list A) :
  Forall (fun x => f x = false) l -> filter f l = [].
Proof.
  induction 1 as [|x l Hx _ IH]; [reflexivity|].
  cbn [filter]. now rewrite Hx.
Qed.

Lemma filter_setFailed_last (es : list Event) (m : string) :
  Forall (fun ev => is_setFailed ev = false) es ->
  filter is_setFailed (es ++ [EvSetFailed m]) = [EvSetFailed m].
Proof.
  intros H. rewrite filter_app, (filter_none _ H). reflexivity.
Qed.

Lemma runSetup_no_setFailed (w : World) :
  emits (fun ev => is_setFailed ev = false)
        (Run.runSetup w (LekkoPrev.getLekko w)).
Proof.
  unfold Run.runSetup, LekkoPrev.getLekko, LekkoPrev.getDownloadURL,
    firstAssets. run_unfold.
  emits_walk; reflexivity.
Qed.

(** X17. The action marks the run failed at most once, and exactly when
    the setup did not return null: once when [runSetup] returns an error or
    throws, never when it succeeds. *)
Theorem failure_marked_once (w : World) (h : History) :
  List.length (filter is_setFailed (events (action w) h)) =
  match outcome (Run.runSetup w (LekkoPrev.getLekko w)) h with
  | Ret None => 0
  | _ => 1
  end.
Proof.
  pose proof (runSetup_no_setFailed w h) as N.
  unfold events, outcome, action in *. rewrite run_of_runSetup.
  destruct (Run.runSetup w (LekkoPrev.getLekko w) h) as [es [[e|]|[m|]]];
    cbn [fst snd] in *.
  - now rewrite (filter_setFailed_last _ N).
  - now rewrite (filter_none _ N).
  - now rewrite (filter_setFailed_last _ N).
  - now rewrite (filter_setFailed_last _ N).
Qed.

(* ================================================================== *)
(** ** What the log of the two-argument variant gives away *)

Lemma slice0_short (n : nat) (t : string) :
  String.length t <= n -> JsString.slice0 n t = t.
Proof.
  unfold JsString.slice0. revert t.
  induction n as [|n IH]; intros [|c t] L; simpl in *; try reflexivity;
    try lia.
  f_equal. apply IH. lia.
Qed.

(** X18. The line that reports the download gives away the length of the
    token and its first five characters, and no more: for one version and
    URL two tokens yield the same line exactly when they have the same
    length and the same first five characters.  A token of at most five
    characters is in the line in full. *)
Theorem logged_part_of_token (version downloadURL t1 t2 : string) :
  (LekkoPrev.downloadingLine version downloadURL t1
   = LekkoPrev.downloadingLine version downloadURL t2 <->
   String.length t1 = String.length t2 /\
   JsString.slice0 5 t1 = JsString.slice0 5 t2) /\
  (String.length t1 <= 5 ->
   JsString.includes (LekkoPrev.downloadingLine version downloadURL t1) t1
   = true).
Proof.
  split; [split|].
  - rewrite !downloadingLine_suffix. apply tokenSuffix_inj.
  - intros [L S]. unfold LekkoPrev.downloadingLine, JsString.length.
    now rewrite L, S.
  - intros L. unfold LekkoPrev.downloadingLine.
    rewrite (@slice0_short 5 t1 L).
    apply (@includes_at
             ("Downloading lekko version " ++ dq ++ version ++ dq ++ " from " ++
              downloadURL ++ " using token of length " ++
              JsString.of_nat (JsString.length t1) ++ ": ")
             t1 EmptyString).
    rewrite append_nil_r, ?append_assoc. reflexivity.
Qed.

Lemma logged_part_of_token_witness :
  LekkoPrev.downloadingLine "0.2.15" "https://example.invalid/a" "ghp_0aaaa"
  = LekkoPrev.downloadingLine "0.2.15" "https://example.invalid/a" "ghp_0bbbb"
  /\
  JsString.includes
    (LekkoPrev.downloadingLine "0.2.15" "https://example.invalid/a" "abc")
    "abc" = true.
Proof.
  split.
  - apply (proj1 (logged_part_of_token "0.2.15" "https://example.invalid/a"
                    "ghp_0aaaa" "ghp_0bbbb")).
    split; reflexivity.
  - apply (proj2 (logged_part_of_token "0.2.15" "https://example.invalid/a"
                    "abc" "abc")).
    cbn. lia.
Defined.

(* ================================================================== *)
(** ** The search path *)

Lemma getLekkoPrev_no_install (w : World) (version githubToken : string) :
  emits (fun ev => is_install ev = false /\ is_setFailed ev = false)
        (LekkoPrev.getLekko w version githubToken).
Proof.
  unfold LekkoPrev.getLekko, LekkoPrev.getDownloadURL, firstAssets.
  run_unfold. emits_walk; split; reflexivity.
Qed.

(** X20. The action changes the search path only after a fetch that
    returned a directory, and the one directory it ever adds is that
    directory on "win32" and its "bin" elsewhere. *)
Theorem path_only_after_fetch (w : World) (h : History) (dir : string) :
  let version := core_getInput w "version" in
  let githubToken := core_getInput w "github_token" in
  let setting := EvInfo ("Setting up Lekko version " ++ dq ++ version ++ dq) in
  In (EvAddPath dir) (events (action w) h) ->
  exists d,
    outcome (LekkoPrev.getLekko w version githubToken) (h ++ [setting])
    = Ret (inl d) /\
    dir = if String.eqb (os_platform w) "win32" then d
          else path_join w d "bin".
Proof.
  intros version githubToken setting.
  unfold events, action. rewrite run_of_runSetup.
  assert (F : forall es m, In (EvAddPath dir) (es ++ [EvSetFailed m]) ->
                           In (EvAddPath dir) es).
  { intros es m H. apply in_app_or in H. destruct H as [H|[H|[]]];
      [exact H | discriminate H]. }
  assert (G : In (EvAddPath dir) (fst (Run.runSetup w (LekkoPrev.getLekko w) h))
              -> exists d,
                outcome (LekkoPrev.getLekko w version githubToken)
                        (h ++ [setting]) = Ret (inl d) /\
                dir = if String.eqb (os_platform w) "win32" then d
                      else path_join w d "bin").
  { destruct (string_dec version EmptyString) as [Hv|Hv].
    { unfold Run.runSetup. fold version. rewrite Hv. intros []. }
    destruct (string_dec githubToken EmptyString) as [Ht|Ht].
    { rewrite (@runSetup_without_github_token w _ h Hv Ht). intros []. }
    rewrite (@runSetup_run w (LekkoPrev.getLekko w) h Hv Ht).
    fold version githubToken setting.
    pose proof (getLekkoPrev_no_install w version githubToken
                  (h ++ [setting])%list) as N.
    unfold outcome, events in *.
    destruct (LekkoPrev.getLekko w version githubToken (h ++ [setting])%list)
      as [fetched r]. cbn [fst snd] in *.
    assert (NF : ~ In (EvAddPath dir) fetched).
    { intros I. rewrite Forall_forall in N. destruct (N _ I) as [X _].
      discriminate X. }
    destruct r as [[d|e]|e].
    - intros I. exists d. split; [reflexivity|].
      assert (I' : In (EvAddPath dir)
                      (setting :: fetched ++
                       [EvInfo ("Adding lekko binary to PATH. This is the install directory: " ++ d);
                        EvAddPath (if String.eqb (os_platform w) "win32"
                                   then d else path_join w d "bin")])%list).
      { cbv zeta in I.
        destruct (io_which w _ "lekko" true) as [b|e].
        - destruct (JsString.seq b EmptyString).
          + cbn [fst] in I. apply in_app_or in I.
            destruct I as [I|[I|[]]]; [exact I | discriminate I].
          + destruct (cp_execSync w _ _) as [out|e]; cbn [fst] in I;
              apply in_app_or in I; destruct I as [I|I]; try exact I;
              cbn [In] in I; intuition discriminate.
        - cbn [fst] in I. apply in_app_or in I.
          destruct I as [I|[I|[]]]; [exact I | discriminate I]. }
      destruct I' as [I'|I']; [discriminate I'|].
      apply in_app_or in I'. destruct I' as [I'|I']; [now elim NF|].
      destruct I' as [I'|[I'|[]]]; [discriminate I'|].
      now injection I'.
    - cbn [fst]. intros [I|I]; [discriminate I | now elim NF].
    - cbn [fst]. intros [I|I]; [discriminate I | now elim NF]. }
  destruct (Run.runSetup w (LekkoPrev.getLekko w) h) as [es [[e|]|[m|]]];
    cbn [fst] in *; intros I; apply G; eauto.
Qed.

Lemma path_only_after_fetch_witness :
  let w := Example.linux (Example.inputs "latest" EmptyString "ghp_token") in
  exists d,
    outcome (LekkoPrev.getLekko w "latest" "ghp_token")
            [EvInfo ("Setting up Lekko version " ++ dq ++ "latest" ++ dq)]
    = Ret (inl d) /\
    "/opt/hostedtoolcache/lekko/latest/x64/bin" = path_join w d "bin".
Proof.
  intro w.
  apply (@path_only_after_fetch w [] "/opt/hostedtoolcache/lekko/latest/x64/bin").
  cbn. repeat first [left; reflexivity | right].
Defined.

(* ================================================================== *)
(** ** The fetch up to the download *)

(** [fetchWith] of [src/lekko.ts] up to the answer of [tc.downloadTool]. *)
Lemma fetchWith_download (w : World) (version tok : string) (h : History) :
  let resolving := EvInfo resolvingLine in
  match Lekko.getDownloadURL w version tok (h ++ [resolving])%list with
  | (es, Throw e) =>
      Lekko.fetchWith w version tok h = (resolving :: es, Throw e)
  | (es, Ret (inr e)) =>
      Lekko.fetchWith w version tok h = (resolving :: es, Ret (inr e))
  | (es, Ret (inl u)) =>
      let downloading :=
        EvInfo ("Downloading lekko version " ++ dq ++ version ++ dq ++
                " from " ++ u) in
      let download := EvDownloadTool u None None (Some (downloadHeaders tok)) in
      match tc_downloadTool w (h ++ resolving :: es ++ [downloading])
                            u None None (Some (downloadHeaders tok)) with
      | Throw e =>
          Lekko.fetchWith w version tok h
          = ((resolving :: es ++ [downloading; download])%list, Throw e)
      | Ret _ =>
          exists rest,
            events (Lekko.fetchWith w version tok) h
            = (resolving :: es ++ downloading :: download :: rest)%list
      end
  end.
Proof.
  intro resolving.
  assert (R : Lekko.fetchWith w version tok h
              = (events (Lekko.fetchWith w version tok) h,
                 outcome (Lekko.fetchWith w version tok) h)) by apply run_eq.
  unfold Lekko.fetchWith in R at 2 3. run_unfold.
  rewrite events_bind, outcome_bind, events_call, outcome_call in R.
  cbn beta iota in R. rewrite events_bind, outcome_bind in R.
  fold resolvingLine in R. fold resolving in R.
  destruct (Lekko.getDownloadURL w version tok (h ++ [resolving])%list)
    as [es r] eqn:Hurl.
  assert (Eg : events (Lekko.getDownloadURL w version tok) (h ++ [resolving])
               = es) by (unfold events; now rewrite Hurl).
  assert (Og : outcome (Lekko.getDownloadURL w version tok) (h ++ [resolving])
               = r) by (unfold outcome; now rewrite Hurl).
  rewrite Eg, Og in R. clear Eg Og Hurl.
  destruct r as [[u|e]|e].
  - cbv zeta. fold (downloadHeaders tok) in R.
    rewrite events_bind, outcome_bind, events_call, outcome_call in R.
    cbn beta iota in R.
    rewrite events_bind, outcome_bind, events_call, outcome_call in R.
    rewrite <- !app_assoc in R. cbn [List.app] in R.
    match type of R with
    | context [tc_downloadTool w ?hh u None None ?hd] =>
        set (answer := tc_downloadTool w hh u None None hd) in R;
        change (tc_downloadTool w _ u None None _) with answer
    end.
    destruct answer as [downloadPath|e].
    + eexists. unfold events at 1. rewrite R. cbn [fst]. reflexivity.
    + rewrite R. reflexivity.
  - rewrite R. cbn [List.app]. run_simpl. now rewrite app_nil_r.
  - rewrite R. cbn [List.app]. now rewrite app_nil_r.
Qed.

(** The two-argument [getLekko] up to the answer of [tc.downloadTool]. *)
Lemma getLekkoPrev_download (w : World) (version githubToken : string)
      (h : History) (es : list Event) (u : string) (e : Thrown) :
  let find := EvFind "lekko" version (os_arch w) in
  let h1 := (h ++ [find; EvInfo resolvingLine])%list in
  let downloading :=
    EvInfo (LekkoPrev.downloadingLine version u githubToken) in
  tc_find w h "lekko" version (os_arch w) = EmptyString ->
  LekkoPrev.getDownloadURL w version githubToken h1 = (es, Ret (inl u)) ->
  tc_downloadTool w (h1 ++ es ++ [downloading]) u None (Some githubToken) None
  = Throw e ->
  LekkoPrev.getLekko w version githubToken h =
  ((find :: EvInfo resolvingLine :: es ++
    [downloading; EvDownloadTool u None (Some githubToken) None])%list,
   Throw e).
Proof.
  intros find h1 downloading Hfind Hurl Hdl.
  rewrite run_eq. unfold LekkoPrev.getLekko. run_unfold.
  rewrite events_bind, outcome_bind, events_call, outcome_call, Hfind.
  change (JsString.seq EmptyString EmptyString) with true.
  cbn [negb]. cbn beta iota.
  rewrite events_bind, outcome_bind, events_call, outcome_call.
  cbn beta iota.
  rewrite events_bind, outcome_bind.
  rewrite <- !app_assoc. cbn [List.app].
  fold find resolvingLine. fold h1.
  assert (Eg : events (LekkoPrev.getDownloadURL w version githubToken) h1 = es)
    by (unfold events; now rewrite Hurl).
  assert (Og : outcome (LekkoPrev.getDownloadURL w version githubToken) h1
               = Ret (inl u)) by (unfold outcome; now rewrite Hurl).
  rewrite Eg, Og. cbn beta iota. fold downloading.
  rewrite events_bind, outcome_bind, events_call, outcome_call.
  cbn beta iota.
  rewrite events_bind, outcome_bind, events_call, outcome_call.
  unfold h1 in Hdl |- *. rewrite <- ?app_assoc in Hdl |- *.
  cbn [List.app] in Hdl |- *. rewrite Hdl.
  rewrite ?app_nil_r. reflexivity.
Qed.

(** What [fetchWith] is seen to do in every run: the line of log, the
    calls of [getDownloadURL] and, once a URL is resolved, the download of
    that URL with the bearer header. *)
Lemma fetchWith_events (w : World) (version tok : string) (h : History) :
  exists rest,
    events (Lekko.fetchWith w version tok) h =
    (EvInfo resolvingLine ::
     events (Lekko.getDownloadURL w version tok) (h ++ [EvInfo resolvingLine])
     ++ rest)%list /\
    forall u,
      outcome (Lekko.getDownloadURL w version tok) (h ++ [EvInfo resolvingLine])
      = Ret (inl u) ->
      In (EvDownloadTool u None None (Some (downloadHeaders tok))) rest.
Proof.
  pose proof (fetchWith_download w version tok h) as F. cbv zeta in F.
  unfold events at 2, outcome.
  destruct (Lekko.getDownloadURL w version tok (h ++ [EvInfo resolvingLine])%list)
    as [es [[u|e]|e]]; cbn [fst snd].
  - destruct (tc_downloadTool w _ u None None _) as [downloadPath|e].
    + destruct F as [rest F]. eexists. split; [exact F|].
      intros u' [= <-]. right. left. reflexivity.
    + unfold events. rewrite F. cbn [fst]. eexists. split; [reflexivity|].
      intros u' [= <-]. right. left. reflexivity.
  - unfold events. rewrite F. cbn [fst]. exists [].
    split; [now rewrite app_nil_r | discriminate].
  - unfold events. rewrite F. cbn [fst]. exists [].
    split; [now rewrite app_nil_r | discriminate].
Qed.

(* ================================================================== *)
(** ** Credential resolution, settled *)

(** C4. After a cache miss, with a non-empty API key [getLekko] makes
    exactly one token-exchange request, which sends the key in the [apikey]
    header.  A response with a non-success status yields an error carrying
    the status text and a response without a token, or with an empty one,
    yields an error; in both cases [getLekko] returns that error having
    made no registry query and no download.  With an empty API key no token
    is exchanged and the github token passed in is used as it is: on a
    supported host the registry is queried by the client that authenticates
    with it, and once a URL is resolved the download of that URL is made
    with it as bearer; no call of the run carries another credential. *)
Theorem credential_resolution (w : World) (version apikey githubToken : string)
        (h : History) :
  tc_find w h "lekko" version (os_arch w) = EmptyString ->
  let find := EvFind "lekko" version (os_arch w) in
  let retrieving :=
    EvInfo "Retrieving developer github token for your api key..." in
  let request :=
    EvFetch Lekko.tokenEndpoint "POST"
            [("apikey", apikey); ("Content-Type", "application/json")] "{}" in
  let answer :=
    fetch w (h ++ [find; retrieving]) Lekko.tokenEndpoint "POST"
          [("apikey", apikey); ("Content-Type", "application/json")] "{}" in
  (apikey <> EmptyString ->
   filter is_token_exchange
          (events (Lekko.getLekko w version apikey githubToken) h) = [request] /\
   (forall resp, answer = Ret resp -> ok resp = false ->
      Lekko.getLekko w version apikey githubToken h =
      ([find; retrieving; request],
       Ret (inr {| message := "Error getting developer access token: " ++
                              statusText resp |}))) /\
   (forall resp data, answer = Ret resp -> ok resp = true ->
      json resp = Ret data ->
      token data = None \/ token data = Some EmptyString ->
      Lekko.getLekko w version apikey githubToken h =
      ([find; retrieving; request],
       Ret (inr {| message := "No token found in response" |})))) /\
  (apikey = EmptyString ->
   Forall (carries githubToken)
          (events (Lekko.getLekko w version apikey githubToken) h) /\
   (forall a p,
       resolveTokens (os_arch w) (os_platform w) = inl (a, p) ->
       In (if String.eqb version "latest"
           then EvListReleases
                  {| auth := githubToken;
                     agent := requestAgentOf (env_http_proxy w) |}
                  "lekkodev" "cli" 1
           else EvReleaseByTag
                  {| auth := githubToken;
                     agent := requestAgentOf (env_http_proxy w) |}
                  "lekkodev" "cli" (releaseTagForVersion version))
          (events (Lekko.getLekko w version apikey githubToken) h)) /\
   (forall u,
       outcome (Lekko.getDownloadURL w version githubToken)
               (h ++ [find; EvInfo resolvingLine]) = Ret (inl u) ->
       In (EvDownloadTool u None None
             (Some [("Accept", "application/octet-stream");
                    ("Authorization", "Bearer " ++ githubToken);
                    ("X-GitHub-Api-Version", "2022-11-28")]))
          (events (Lekko.getLekko w version apikey githubToken) h))).
Proof.
  intros Hfind find retrieving request answer.
  pose proof (getLekko_miss w version apikey githubToken h Hfind) as E.
  cbv zeta in E. fold find retrieving in E.
  change (tokenRequest apikey) with request in E.
  rewrite nonempty_length in E.
  assert (G : outcome (Lekko.getGithubToken w apikey) (h ++ [find; retrieving])
              = snd (Lekko.getGithubToken w apikey (h ++ [find; retrieving])%list))
    by reflexivity.
  rewrite getGithubToken_run in G. cbn [snd] in G. fold answer in G.
  split.
  - intros Hkey. apply seq_false in Hkey. rewrite Hkey in E. cbn [negb] in E.
    rewrite G in E. clear G. split; [|split].
    + unfold events. rewrite E.
      assert (F : forall tok h2,
                 filter is_token_exchange
                        (find :: retrieving :: request ::
                           events (Lekko.fetchWith w version tok) h2)
                 = [request]).
      { intros tok h2. cbn [filter is_token_exchange find retrieving request].
        f_equal. apply (carries_no_exchange (tok := tok)), fetchWith_carries. }
      destruct answer as [resp|e]; [|reflexivity].
      destruct (ok resp); [|reflexivity].
      destruct (json resp) as [data|e]; [|reflexivity].
      destruct (token data) as [t|]; [|reflexivity].
      destruct (Nat.eqb (String.length t) 0); [reflexivity|].
      cbn [fst]. apply F.
    + intros resp Ha Hok. rewrite E, Ha, Hok. reflexivity.
    + intros resp data Ha Hok Hj Ht. rewrite E, Ha, Hok, Hj.
      destruct Ht as [-> | ->]; reflexivity.
  - intros ->. cbn [JsString.seq String.eqb negb] in E.
    assert (Ev0 : events (Lekko.getLekko w version EmptyString githubToken) h
                  = find :: events (Lekko.fetchWith w version githubToken)
                                   (h ++ [find]))
      by (unfold events at 1; now rewrite E).
    rewrite Ev0. clear Ev0 E.
    destruct (fetchWith_events w version githubToken (h ++ [find]))
      as (rest & Ev & Dl).
    rewrite <- app_assoc in Ev, Dl. cbn [List.app] in Ev, Dl.
    split; [|split].
    + constructor; [exact I | apply fetchWith_carries].
    + intros a p Hres. right. rewrite Ev. right.
      apply in_or_app. left.
      rewrite (proj1 (getDownloadURL_events w version githubToken _)), Hres.
      left. reflexivity.
    + intros u Hu. right. rewrite Ev. right.
      apply in_or_app. right. exact (Dl u Hu).
Qed.

Lemma credential_resolution_witness :
  let input := Example.inputs "latest" "lekko_apikey" EmptyString in
  outcome (Lekko.getLekko (Example.linuxDenied input) "latest" "lekko_apikey"
                          EmptyString) []
  = Ret (inr {| message := "Error getting developer access token: Unauthorized" |})
  /\
  Lekko.getLekko
    (Example.host "x64" "linux" input EmptyString (Example.granted EmptyString)
                  (Ret [Example.release]) EmptyString)
    "latest" "lekko_apikey" EmptyString []
  = ([EvFind "lekko" "latest" "x64";
      EvInfo "Retrieving developer github token for your api key...";
      tokenRequest "lekko_apikey"],
     Ret (inr noTokenFound)) /\
  In (EvListReleases {| auth := "ghp_token"; agent := None |} "lekkodev" "cli" 1)
     (events (Lekko.getLekko (Example.linux input) "latest" EmptyString
                             "ghp_token") []) /\
  In (EvDownloadTool (url Example.linuxAsset) None None
        (Some [("Accept", "application/octet-stream");
               ("Authorization", "Bearer ghp_token");
               ("X-GitHub-Api-Version", "2022-11-28")]))
     (events (Lekko.getLekko (Example.linux input) "latest" EmptyString
                             "ghp_token") []).
Proof.
  intro input. split; [|split].
  - destruct (@credential_resolution (Example.linuxDenied input) "latest"
                "lekko_apikey" EmptyString [] eq_refl) as [K _].
    destruct K as [_ [D _]]; [discriminate|].
    unfold outcome. rewrite (D _ eq_refl eq_refl). reflexivity.
  - destruct (@credential_resolution
                (Example.host "x64" "linux" input EmptyString
                              (Example.granted EmptyString)
                              (Ret [Example.release]) EmptyString)
                "latest" "lekko_apikey" EmptyString [] eq_refl) as [K _].
    destruct K as [_ [_ N]]; [discriminate|].
    exact (N _ _ eq_refl eq_refl eq_refl (or_intror eq_refl)).
  - destruct (@credential_resolution (Example.linux input) "latest"
                EmptyString "ghp_token" [] eq_refl) as [_ C].
    destruct (C eq_refl) as [_ [Q D]]. split.
    + exact (Q "x86_64" "Linux" eq_refl).
    + exact (D (url Example.linuxAsset) eq_refl).
Defined.

(* ================================================================== *)
(** ** A download that fails *)

(** X19. After a cache miss and a resolved URL, a download that throws makes
    [getLekko] throw the same value, the download being its last call:
    nothing is extracted and nothing is written to the cache.  This holds of
    [getLekko] of [src/lekko.ts] called without an API key and of the
    two-argument variant. *)
Theorem download_failure_propagates (w : World) (version githubToken : string)
        (h : History) (es : list Event) (u : string) (e : Thrown) :
  let find := EvFind "lekko" version (os_arch w) in
  let h1 := (h ++ [find; EvInfo resolvingLine])%list in
  tc_find w h "lekko" version (os_arch w) = EmptyString ->
  (let downloading :=
     EvInfo ("Downloading lekko version " ++ dq ++ version ++ dq ++ " from " ++ u) in
   let download :=
     EvDownloadTool u None None (Some (downloadHeaders githubToken)) in
   Lekko.getDownloadURL w version githubToken h1 = (es, Ret (inl u)) ->
   tc_downloadTool w (h1 ++ es ++ [downloading]) u None None
                   (Some (downloadHeaders githubToken)) = Throw e ->
   Lekko.getLekko w version EmptyString githubToken h =
   ((find :: EvInfo resolvingLine :: es ++ [downloading; download])%list,
    Throw e)) /\
  (let downloading :=
     EvInfo (LekkoPrev.downloadingLine version u githubToken) in
   let download := EvDownloadTool u None (Some githubToken) None in
   LekkoPrev.getDownloadURL w version githubToken h1 = (es, Ret (inl u)) ->
   tc_downloadTool w (h1 ++ es ++ [downloading]) u None (Some githubToken) None
   = Throw e ->
   LekkoPrev.getLekko w version githubToken h =
   ((find :: EvInfo resolvingLine :: es ++ [downloading; download])%list,
    Throw e)).
Proof.
  intros find h1 Hfind. split.
  - intros downloading download Hurl Hdl.
    pose proof (getLekko_miss w version EmptyString githubToken h Hfind) as E.
    cbv zeta in E. cbn [String.length Nat.ltb Nat.leb] in E. fold find in E.
    pose proof (fetchWith_download w version githubToken (h ++ [find])) as F.
    cbv zeta in F. rewrite <- !app_assoc in F. cbn [List.app] in F.
    fold h1 in F. rewrite Hurl in F.
    unfold h1 in Hdl. rewrite <- !app_assoc in Hdl. cbn [List.app] in Hdl.
    rewrite <- ?app_assoc in F. cbn [List.app] in F.
    fold downloading in F. rewrite Hdl in F.
    rewrite E. unfold events, outcome. rewrite F. reflexivity.
  - intros downloading download Hurl Hdl.
    exact (getLekkoPrev_download w version githubToken h Hfind Hurl Hdl).
Qed.

Lemma download_failure_propagates_witness :
  let w := Example.proxied (Example.inputs "latest" EmptyString "ghp_token") in
  let query := EvListReleases (clientOf w "ghp_token") "lekkodev" "cli" 1 in
  let u := url Example.darwinAsset in
  Lekko.getLekko w "latest" EmptyString "ghp_token" [] =
  ([EvFind "lekko" "latest" "arm64"; EvInfo resolvingLine; query;
    EvInfo ("Downloading lekko version " ++ dq ++ "latest" ++ dq ++ " from " ++ u);
    EvDownloadTool u None None (Some (downloadHeaders "ghp_token"))],
   Throw ThrownOther) /\
  LekkoPrev.getLekko w "latest" "ghp_token" [] =
  ([EvFind "lekko" "latest" "arm64"; EvInfo resolvingLine; query;
    EvInfo (LekkoPrev.downloadingLine "latest" u "ghp_token");
    EvDownloadTool u None (Some "ghp_token") None],
   Throw ThrownOther).
Proof.
  intros w query u.
  destruct (@download_failure_propagates w "latest" "ghp_token" [] [query] u
              ThrownOther eq_refl) as [A B].
  split; [exact (A eq_refl eq_refl) | exact (B eq_refl eq_refl)].
Defined.
